(** * dbus-signal.c: NameLost subscription, name request and timed release

    A shallow embedding of [src/dbus-signal.c].  The program talks to three
    libraries (libdbus, dbus-glib, GLib); their answers are not computed by
    the program, so they are gathered in a [World] over which every theorem
    quantifies.  The program itself is written in a small state-and-failure
    monad: the state carries the two C globals ([mainloop], [con]), the
    bookkeeping of the GLib main context (clock, timeout sources, signal
    handlers) and the chronological trace of everything observable (lines
    written to stdout/stderr and library calls with their arguments). *)

From Stdlib Require Import ZArith NArith String Ascii List Bool Lia DecimalString.
Import ListNotations.
Local Open Scope string_scope.
Local Open Scope list_scope.
Local Open Scope Z_scope.

(** ** Values of the C program *)

(** A C [int] (32 bits, two's complement).  The program does no arithmetic
    on its ints; [as_int] is only used to read a library's answer as an int. *)
Definition as_int (z : Z) : Z := (z + 2 ^ 31) mod 2 ^ 32 - 2 ^ 31.

(** [printf]'s [%d]. *)
Definition fmt_d (z : Z) : string := NilZero.string_of_int (Z.to_int z).

(** The C escape [\n]. *)
Definition nl : string := String (ascii_of_nat 10) EmptyString.

(** A format string with its arguments substituted: the pieces in order. *)
Definition fmt (pieces : list string) : string := String.concat EmptyString pieces.

(** [#define false 0], and GLib's [gboolean]. *)
Definition false_ : bool := false.

(** Constants of [dbus/dbus-shared.h] (the header is not part of the
    repository; the values are the ones of the D-Bus specification). *)
Definition DBUS_NAME_FLAG_ALLOW_REPLACEMENT : Z := 1.
Definition DBUS_REQUEST_NAME_REPLY_PRIMARY_OWNER : Z := 1.
Definition DBUS_REQUEST_NAME_REPLY_IN_QUEUE : Z := 2.
Definition DBUS_REQUEST_NAME_REPLY_EXISTS : Z := 3.
Definition DBUS_REQUEST_NAME_REPLY_ALREADY_OWNER : Z := 4.
Definition DBUS_RELEASE_NAME_REPLY_RELEASED : Z := 1.
Definition DBUS_RELEASE_NAME_REPLY_NON_EXISTENT : Z := 2.
Definition DBUS_RELEASE_NAME_REPLY_NOT_OWNER : Z := 3.

Inductive DBusBusType := DBUS_BUS_SESSION | DBUS_BUS_SYSTEM | DBUS_BUS_STARTER.

(** The GTypes a signal signature can list; a C argument list ending in
    [G_TYPE_INVALID] is the Rocq list of the types before it. *)
Inductive GType := G_TYPE_BOOLEAN | G_TYPE_INT | G_TYPE_UINT | G_TYPE_STRING.

Inductive GValue :=
| V_boolean (b : bool)
| V_int (z : Z)
| V_uint (n : N)
| V_string (s : string).

Definition type_of (v : GValue) : GType :=
  match v with
  | V_boolean _ => G_TYPE_BOOLEAN
  | V_int _ => G_TYPE_INT
  | V_uint _ => G_TYPE_UINT
  | V_string _ => G_TYPE_STRING
  end.

Definition GType_eqb (a b : GType) : bool :=
  match a, b with
  | G_TYPE_BOOLEAN, G_TYPE_BOOLEAN | G_TYPE_INT, G_TYPE_INT
  | G_TYPE_UINT, G_TYPE_UINT | G_TYPE_STRING, G_TYPE_STRING => true
  | _, _ => false
  end.

Fixpoint signature_eqb (a b : list GType) : bool :=
  match a, b with
  | [], [] => true
  | x :: a', y :: b' => GType_eqb x y && signature_eqb a' b'
  | _, _ => false
  end.

(** Structs the program reads a field of. *)
Record GError := { g_code : Z; g_message : string }.
Record DBusError := { e_name : string; e_message : string }.

(** Opaque objects of the libraries.  A C pointer to one of them is an
    [option]: [None] is [NULL]. *)
Record DBusGConnection := { gconn_id : nat }.
Record DBusConnection := { conn_id : nat }.
Record GMainLoop := { loop_id : nat }.
Record DBusGProxy := {
  proxy_id : nat;
  proxy_connection : option DBusGConnection;
  proxy_name : string;
  proxy_path : string;
  proxy_interface : string
}.

(** [gpointer] is [void *]: what it may point to in this program. *)
Inductive Object :=
| Obj_gconnection (c : DBusGConnection)
| Obj_proxy (p : DBusGProxy)
| Obj_loop (l : GMainLoop).
Definition gpointer := option Object.

(** Function pointers, by C type: the functions of the program that have
    that type. *)
Inductive GSourceFunc := fn_releaseName.   (* takes a gpointer, returns gboolean *)
Inductive GCallback := fn_onNameLost.      (* returns void *)

(** ** What can be observed of a run *)

Inductive Stream := Stdout | Stderr.

Inductive LibCall :=
| c_g_type_init
| c_dbus_g_bus_get (bus : DBusBusType)
| c_g_error_free (error : option GError)
| c_exit (status : Z)
| c_dbus_g_connection_get_connection (sigcon : option DBusGConnection)
| c_dbus_bus_request_name (con : option DBusConnection) (name : string)
    (flags : Z) (error : option DBusError)
| c_dbus_bus_release_name (con : option DBusConnection) (name : string)
    (error : option DBusError)
| c_dbus_error_free (error : option DBusError)
| c_g_main_loop_new
| c_dbus_g_proxy_new_for_name (sigcon : option DBusGConnection)
    (name path iface : string)
| c_dbus_g_proxy_add_signal (proxy : option DBusGProxy) (signal : string)
    (types : list GType)
| c_dbus_g_proxy_connect_signal (proxy : option DBusGProxy) (signal : string)
    (handler : GCallback) (data : gpointer)
| c_dbus_g_proxy_disconnect_signal (proxy : option DBusGProxy) (signal : string)
    (handler : GCallback) (data : gpointer)
| c_g_timeout_add (interval : N) (function : GSourceFunc) (data : gpointer)
| c_g_main_loop_run (loop : option GMainLoop)
| c_g_main_loop_quit (loop : option GMainLoop)
| c_g_object_unref (object : gpointer).

Inductive Event :=
| Print (fd : Stream) (text : string)      (* g_print / g_printerr *)
| Call (c : LibCall)                       (* control enters a library *)
| LoopReturned (loop : option GMainLoop).  (* g_main_loop_run returns *)

(** ** The world outside the program *)

(** A D-Bus signal message as the connection receives it. *)
Record Signal := {
  sg_sender : string;
  sg_path : string;
  sg_interface : string;
  sg_member : string;
  sg_args : list GValue
}.

(** What wakes a blocked main loop: time passing or a signal arriving. *)
Inductive LoopEvent :=
| Elapse (ms : N)
| Emit (sg : Signal).

Record World := {
  (** [dbus_g_bus_get]: the connection returned and what is stored through
      the [GError **] argument. *)
  bus_get_reply : option DBusGConnection * option GError;
  (** [dbus_bus_request_name]: the value returned. *)
  request_name_reply : Z;
  (** [dbus_bus_release_name]: the value returned to the call that comes
      after [n] earlier release calls. *)
  release_name_reply : nat -> Z;
  (** What reaches the main loop while it runs, in order.  When the list is
      used up nothing arrives any more and a loop still running blocks for
      good. *)
  loop_events : list LoopEvent
}.

(** ** Program state *)

Record Timeout := {
  src_id : nat;
  src_interval : N;
  src_due : N;
  src_func : GSourceFunc;
  src_data : gpointer
}.

Record Handler := {
  h_proxy : DBusGProxy;
  h_signal : string;
  h_func : GCallback;
  h_data : gpointer
}.

Record State := {
  trace : list Event;
  (** the globals of dbus-signal.c *)
  mainloop : option GMainLoop;
  con : option DBusConnection;
  (** GLib main context and dbus-glib proxies *)
  clock : N;                                      (* monotonic time, ms *)
  fresh : nat;                                    (* next object/source id *)
  running : list nat;                             (* loops with is_running set *)
  timeouts : list Timeout;
  declared : list (nat * string * list GType);     (* dbus_g_proxy_add_signal *)
  handlers : list Handler
}.

Definition initial : State :=
  {| trace := []; mainloop := None; con := None; clock := 0%N; fresh := 1%nat;
     running := []; timeouts := []; declared := []; handlers := [] |}.

Definition set_trace (t : list Event) (s : State) : State :=
  {| trace := t; mainloop := mainloop s; con := con s; clock := clock s;
     fresh := fresh s; running := running s; timeouts := timeouts s;
     declared := declared s; handlers := handlers s |}.
Definition set_mainloop (l : option GMainLoop) (s : State) : State :=
  {| trace := trace s; mainloop := l; con := con s; clock := clock s;
     fresh := fresh s; running := running s; timeouts := timeouts s;
     declared := declared s; handlers := handlers s |}.
Definition set_con (c : option DBusConnection) (s : State) : State :=
  {| trace := trace s; mainloop := mainloop s; con := c; clock := clock s;
     fresh := fresh s; running := running s; timeouts := timeouts s;
     declared := declared s; handlers := handlers s |}.
Definition set_clock (t : N) (s : State) : State :=
  {| trace := trace s; mainloop := mainloop s; con := con s; clock := t;
     fresh := fresh s; running := running s; timeouts := timeouts s;
     declared := declared s; handlers := handlers s |}.
Definition set_fresh (n : nat) (s : State) : State :=
  {| trace := trace s; mainloop := mainloop s; con := con s; clock := clock s;
     fresh := n; running := running s; timeouts := timeouts s;
     declared := declared s; handlers := handlers s |}.
Definition set_running (r : list nat) (s : State) : State :=
  {| trace := trace s; mainloop := mainloop s; con := con s; clock := clock s;
     fresh := fresh s; running := r; timeouts := timeouts s;
     declared := declared s; handlers := handlers s |}.
Definition set_timeouts (ts : list Timeout) (s : State) : State :=
  {| trace := trace s; mainloop := mainloop s; con := con s; clock := clock s;
     fresh := fresh s; running := running s; timeouts := ts;
     declared := declared s; handlers := handlers s |}.
Definition set_declared (d : list (nat * string * list GType)) (s : State) : State :=
  {| trace := trace s; mainloop := mainloop s; con := con s; clock := clock s;
     fresh := fresh s; running := running s; timeouts := timeouts s;
     declared := d; handlers := handlers s |}.
Definition set_handlers (h : list Handler) (s : State) : State :=
  {| trace := trace s; mainloop := mainloop s; con := con s; clock := clock s;
     fresh := fresh s; running := running s; timeouts := timeouts s;
     declared := declared s; handlers := h |}.

(** ** The monad: state, plus the three ways a C process stops early *)

Inductive Fault :=
| NullDeref (expr : string).   (* a field read through a NULL pointer *)

Inductive Result (A : Type) :=
| Ok (a : A) (s : State)           (* control goes on *)
| Exit (status : Z) (s : State)    (* exit() was called *)
| Crash (f : Fault) (s : State)    (* undefined behaviour reached *)
| Hang (s : State).                (* blocked in the main loop for good *)
Arguments Ok {A} a s.
Arguments Exit {A} status s.
Arguments Crash {A} f s.
Arguments Hang {A} s.

Definition M (A : Type) : Type := State -> Result A.

Definition ret {A} (a : A) : M A := fun s => Ok a s.

Definition bind {A B} (m : M A) (k : A -> M B) : M B :=
  fun s =>
    match m s with
    | Ok a s' => k a s'
    | Exit n s' => Exit n s'
    | Crash f s' => Crash f s'
    | Hang s' => Hang s'
    end.

Declare Scope prog_scope.
Delimit Scope prog_scope with prog.
Notation "x <- m ;; k" := (bind m (fun x => k))
  (at level 61, m at next level, right associativity) : prog_scope.
Notation "m ;; k" := (bind m (fun _ => k))
  (at level 61, right associativity) : prog_scope.
Local Open Scope prog_scope.

Definition get {A} (f : State -> A) : M A := fun s => Ok (f s) s.
Definition modify (f : State -> State) : M unit := fun s => Ok tt (f s).
Definition emit (e : Event) : M unit :=
  modify (fun s => set_trace (trace s ++ [e]) s).

(** [p -> field]: undefined when [p] is NULL. *)
Definition deref {A} (expr : string) (p : option A) : M A :=
  fun s =>
    match p with
    | Some a => Ok a s
    | None => Crash (NullDeref expr) s
    end.

Definition is_null {A} (p : option A) : bool :=
  match p with Some _ => false | None => true end.

(** ** The libraries, as far as the program uses them

    Each function records its call in the trace and then does what its
    documentation says to the main context or to the proxies.  A NULL
    object argument makes the GLib and dbus-glib functions return at once
    (their [g_return_if_fail] checks). *)

Definition g_print (text : string) : M unit := emit (Print Stdout text).
Definition g_printerr (text : string) : M unit := emit (Print Stderr text).

Definition g_type_init : M unit := emit (Call c_g_type_init).

Definition exit {A} (status : Z) : M A :=
  fun s => Exit status (set_trace (trace s ++ [Call (c_exit status)]) s).

Definition g_error_free (error : option GError) : M unit :=
  emit (Call (c_g_error_free error)).

Definition dbus_error_free (error : option DBusError) : M unit :=
  emit (Call (c_dbus_error_free error)).

Definition is_release (e : Event) : bool :=
  match e with
  | Call (c_dbus_bus_release_name _ _ _) => true
  | _ => false
  end.

(** How many times [dbus_bus_release_name] was entered. *)
Definition releases (t : list Event) : nat := length (filter is_release t).

Definition alloc : M nat :=
  i <- get fresh ;;
  modify (set_fresh (S i)) ;;
  ret i.

Section Libraries.
Variable w : World.

(** [error] is the value of the caller's variable whose address is passed;
    the second component is its value after the call. *)
Definition dbus_g_bus_get (bus : DBusBusType) (error : option GError)
  : M (option DBusGConnection * option GError) :=
  emit (Call (c_dbus_g_bus_get bus)) ;;
  ret (fst (bus_get_reply w),
       match snd (bus_get_reply w) with
       | Some e => Some e
       | None => error
       end).

Definition dbus_g_connection_get_connection (sigcon : option DBusGConnection)
  : M (option DBusConnection) :=
  emit (Call (c_dbus_g_connection_get_connection sigcon)) ;;
  ret (match sigcon with
       | Some c => Some {| conn_id := gconn_id c |}
       | None => None
       end).

(** The [DBusError *] is passed by value: whatever the library does, the
    caller's pointer variable keeps its value, and through a NULL pointer
    nothing can be reported. *)
Definition dbus_bus_request_name (connection : option DBusConnection)
    (name : string) (flags : Z) (error : option DBusError) : M Z :=
  emit (Call (c_dbus_bus_request_name connection name flags error)) ;;
  ret (as_int (request_name_reply w)).

Definition dbus_bus_release_name (connection : option DBusConnection)
    (name : string) (error : option DBusError) : M Z :=
  n <- get (fun s => releases (trace s)) ;;
  emit (Call (c_dbus_bus_release_name connection name error)) ;;
  ret (as_int (release_name_reply w n)).
End Libraries.

Definition g_main_loop_new (context : gpointer) (is_running : bool)
  : M (option GMainLoop) :=
  emit (Call c_g_main_loop_new) ;;
  i <- alloc ;;
  (if is_running
   then modify (fun s => set_running (i :: running s) s)
   else ret tt) ;;
  ret (Some {| loop_id := i |}).

Definition g_main_loop_quit (loop : option GMainLoop) : M unit :=
  emit (Call (c_g_main_loop_quit loop)) ;;
  match loop with
  | None => ret tt
  | Some l =>
      modify (fun s =>
        set_running (filter (fun i => negb (Nat.eqb i (loop_id l))) (running s)) s)
  end.

Definition dbus_g_proxy_new_for_name (connection : option DBusGConnection)
    (name path iface : string) : M (option DBusGProxy) :=
  emit (Call (c_dbus_g_proxy_new_for_name connection name path iface)) ;;
  match connection with
  | None => ret None
  | Some _ =>
      i <- alloc ;;
      ret (Some {| proxy_id := i; proxy_connection := connection;
                   proxy_name := name; proxy_path := path;
                   proxy_interface := iface |})
  end.

Definition dbus_g_proxy_add_signal (proxy : option DBusGProxy)
    (signal_name : string) (types : list GType) : M unit :=
  emit (Call (c_dbus_g_proxy_add_signal proxy signal_name types)) ;;
  match proxy with
  | None => ret tt
  | Some p =>
      modify (fun s =>
        set_declared (declared s ++ [(proxy_id p, signal_name, types)]) s)
  end.

Fixpoint signature_of (d : list (nat * string * list GType)) (id : nat)
    (signal_name : string) : option (list GType) :=
  match d with
  | [] => None
  | (i, n, ts) :: d' =>
      if Nat.eqb i id && String.eqb n signal_name then Some ts
      else signature_of d' id signal_name
  end.

(** A handler is only connected to a signal that was added before (dbus-glib
    warns and returns otherwise).  The last C argument, the destroy notifier
    of [data], plays no part and is left out. *)
Definition dbus_g_proxy_connect_signal (proxy : option DBusGProxy)
    (signal_name : string) (handler : GCallback) (data : gpointer) : M unit :=
  emit (Call (c_dbus_g_proxy_connect_signal proxy signal_name handler data)) ;;
  match proxy with
  | None => ret tt
  | Some p =>
      d <- get declared ;;
      match signature_of d (proxy_id p) signal_name with
      | None => ret tt
      | Some _ =>
          modify (fun s =>
            set_handlers (handlers s ++
              [{| h_proxy := p; h_signal := signal_name;
                  h_func := handler; h_data := data |}]) s)
      end
  end.

(** The source is due [interval] ms from now; returns the source id. *)
Definition g_timeout_add (interval : N) (function : GSourceFunc)
    (data : gpointer) : M nat :=
  emit (Call (c_g_timeout_add interval function data)) ;;
  i <- alloc ;;
  modify (fun s =>
    set_timeouts (timeouts s ++
      [{| src_id := i; src_interval := interval;
          src_due := (clock s + interval)%N;
          src_func := function; src_data := data |}]) s) ;;
  ret i.

(** Dropping the last reference of a proxy disconnects its handlers. *)
Definition g_object_unref (object : gpointer) : M unit :=
  emit (Call (c_g_object_unref object)) ;;
  match object with
  | Some (Obj_proxy p) =>
      modify (fun s =>
        set_handlers
          (filter (fun h => negb (Nat.eqb (proxy_id (h_proxy h)) (proxy_id p)))
                  (handlers s)) s) ;;
      modify (fun s =>
        set_declared
          (filter (fun d => negb (Nat.eqb (fst (fst d)) (proxy_id p)))
                  (declared s)) s)
  | _ => ret tt
  end.

(** *** The main loop

    [g_main_loop_run] sets [is_running] and iterates the context while it
    stays set.  An iteration blocks until something is ready: here, until
    the world's next [LoopEvent].  After [Elapse] every timeout source that
    is due is dispatched: its function is called, and the source is
    destroyed when the function returns FALSE and is due again one
    interval later when it returns TRUE.  After [Emit] the handlers
    connected to the signal are called, provided the proxy names the
    sender, path and interface of the message and the arguments have the
    types the signal was added with. *)

Section MainLoop.
(** How a function pointer is called: filled in with the program's
    functions below. *)
Variable call_source : GSourceFunc -> gpointer -> M bool.
Variable call_handler : GCallback -> list GValue -> gpointer -> M unit.

Definition is_running (l : GMainLoop) (s : State) : bool :=
  existsb (Nat.eqb (loop_id l)) (running s).

Definition alive (id : nat) (s : State) : bool :=
  existsb (fun t => Nat.eqb (src_id t) id) (timeouts s).

Definition g_source_destroy (id : nat) : M unit :=
  modify (fun s =>
    set_timeouts (filter (fun t => negb (Nat.eqb (src_id t) id)) (timeouts s)) s).

Definition rearm (id : nat) : M unit :=
  modify (fun s =>
    set_timeouts
      (map (fun t =>
              if Nat.eqb (src_id t) id
              then {| src_id := src_id t; src_interval := src_interval t;
                      src_due := (clock s + src_interval t)%N;
                      src_func := src_func t; src_data := src_data t |}
              else t)
           (timeouts s)) s).

Fixpoint dispatch_timeouts (ready : list Timeout) : M unit :=
  match ready with
  | [] => ret tt
  | t :: rest =>
      live <- get (alive (src_id t)) ;;
      (if live
       then
         again <- call_source (src_func t) (src_data t) ;;
         if again then rearm (src_id t) else g_source_destroy (src_id t)
       else ret tt) ;;
      dispatch_timeouts rest
  end.

Definition is_due (now : N) (t : Timeout) : bool := (src_due t <=? now)%N.

Definition handler_matches (d : list (nat * string * list GType))
    (sg : Signal) (h : Handler) : bool :=
  String.eqb (proxy_name (h_proxy h)) (sg_sender sg)
  && String.eqb (proxy_path (h_proxy h)) (sg_path sg)
  && String.eqb (proxy_interface (h_proxy h)) (sg_interface sg)
  && String.eqb (h_signal h) (sg_member sg)
  && match signature_of d (proxy_id (h_proxy h)) (h_signal h) with
     | Some ts => signature_eqb ts (map type_of (sg_args sg))
     | None => false
     end.

Fixpoint dispatch_signal (sg : Signal) (hs : list Handler) : M unit :=
  match hs with
  | [] => ret tt
  | h :: rest =>
      call_handler (h_func h) (sg_args sg) (h_data h) ;;
      dispatch_signal sg rest
  end.

Definition iteration (ev : LoopEvent) : M unit :=
  match ev with
  | Elapse ms =>
      modify (fun s => set_clock (clock s + ms)%N s) ;;
      ready <- get (fun s => filter (is_due (clock s)) (timeouts s)) ;;
      dispatch_timeouts ready
  | Emit sg =>
      hs <- get (fun s => filter (handler_matches (declared s) sg) (handlers s)) ;;
      dispatch_signal sg hs
  end.

Fixpoint iterate (l : GMainLoop) (evs : list LoopEvent) : M unit :=
  fun s =>
    if is_running l s then
      match evs with
      | [] => Hang s
      | ev :: evs' => (iteration ev ;; iterate l evs') s
      end
    else Ok tt s.

Definition g_main_loop_run (evs : list LoopEvent) (loop : option GMainLoop)
  : M unit :=
  emit (Call (c_g_main_loop_run loop)) ;;
  match loop with
  | None => ret tt
  | Some l =>
      modify (fun s => set_running (loop_id l :: running s) s) ;;
      iterate l evs
  end ;;
  emit (LoopReturned loop).
End MainLoop.

(** ** The program: dbus-signal.c *)

Definition the_name : string := "org.DBusTest.SignalTest".

(** [void onNameLost()] *)
Definition onNameLost : M unit :=
  g_print (fmt ["!!! We lost our Name !!!"; nl]) ;;
  l <- get mainloop ;;
  g_main_loop_quit l.

Section Program.
Variable w : World.

(** The body of [releaseName] after the release call: the [switch] on
    [retval] and the [if (retval == -1)] that follows it, for the values
    the locals [retval] and [error] have at that point. *)
Definition releaseName_report (retval : Z) (error : option DBusError) : M unit :=
  (if retval =? DBUS_RELEASE_NAME_REPLY_RELEASED then
     g_printerr (fmt ["releaseName(): Name org.DBusTest.SignalTest was released successfully"; nl])
   else if retval =? DBUS_RELEASE_NAME_REPLY_NOT_OWNER then
     g_printerr (fmt ["releaseName(): Name org.DBusTest.SignalTest is not owned by this app!"; nl])
   else if retval =? DBUS_RELEASE_NAME_REPLY_NON_EXISTENT then
     g_printerr (fmt ["releaseName(): Name org.DBusTest.SignalTest does not exist!"; nl])
   else
     g_printerr (fmt ["releaseName(): Unknown exit status "; fmt_d retval; nl])) ;;
  if retval =? -1 then
    if is_null error then
      g_printerr (fmt ["releaseName(): Something fishy. We got an exit status of -1 but error == NULL!"; nl])
    else
      e <- deref "error -> message" error ;;
      g_printerr (fmt ["Could not release name org.DBusTest.SignalTest: "; e_message e; nl]) ;;
      g_printerr (fmt ["This program may not terminate..."; nl]) ;;
      dbus_error_free error
  else ret tt.

(** [gboolean releaseName(gpointer my_data)] *)
Definition releaseName (my_data : gpointer) : M bool :=
  let error : option DBusError := None in
  c <- get con ;;
  retval <- dbus_bus_release_name w c "org.DBusTest.SignalTest" error ;;
  releaseName_report retval error ;;
  ret false_.

Definition call_source (f : GSourceFunc) (data : gpointer) : M bool :=
  match f with
  | fn_releaseName => releaseName data
  end.

(** [onNameLost] is declared with an empty parameter list: whatever the
    marshaller passes is ignored. *)
Definition call_handler (f : GCallback) (args : list GValue) (data : gpointer)
  : M unit :=
  match f with
  | fn_onNameLost => onNameLost
  end.

(** The [switch (retval)] of [main], for the values of [retval] and
    [dbuserror] after the request. *)
Definition request_report (retval : Z) (dbuserror : option DBusError) : M unit :=
  if retval =? -1 then
    e <- deref "dbuserror -> message" dbuserror ;;
    g_printerr (fmt ["Couldn't acquire name org.DBusTest.SignalTest for our connection: "; e_message e; nl]) ;;
    g_printerr (fmt ["This program may not terminate as a result of this error!"; nl]) ;;
    dbus_error_free dbuserror
  else if retval =? DBUS_REQUEST_NAME_REPLY_PRIMARY_OWNER then
    g_printerr (fmt ["dbus_bus_request_name(): We now own the name org.DBusTest.SignalTest!"; nl])
  else if retval =? DBUS_REQUEST_NAME_REPLY_IN_QUEUE then
    g_printerr (fmt ["dbus_bus_request_name(): We are standing in queue for our name!"; nl])
  else if retval =? DBUS_REQUEST_NAME_REPLY_EXISTS then
    g_printerr (fmt ["dbus_bus_request_name(): :-( The name we asked for already exists!"; nl])
  else if retval =? DBUS_REQUEST_NAME_REPLY_ALREADY_OWNER then
    g_printerr (fmt ["dbus_bus_request_name(): Eh? We already own this name!"; nl])
  else
    g_printerr (fmt ["dbus_bus_request_name(): Unknown result = "; fmt_d retval; nl]).

(** [main] up to and including the request for the name. *)
Definition main_acquire : M (option DBusGConnection) :=
  g_type_init ;;
  let error : option GError := None in
  r <- dbus_g_bus_get w DBUS_BUS_SESSION error ;;
  let sigcon := fst r in
  let error := snd r in
  (if is_null sigcon then
     e <- deref "error -> message" error ;;
     g_printerr (fmt ["Failed to connect to Session bus: "; g_message e; nl]) ;;
     g_error_free error ;;
     exit 1
   else ret tt) ;;
  c <- dbus_g_connection_get_connection sigcon ;;
  modify (set_con c) ;;
  let dbuserror : option DBusError := None in
  c <- get con ;;
  retval <- dbus_bus_request_name w c "org.DBusTest.SignalTest"
              DBUS_NAME_FLAG_ALLOW_REPLACEMENT dbuserror ;;
  request_report retval dbuserror ;;
  ret sigcon.

(** [main] from [g_main_loop_new] to the call that arms the timer. *)
Definition main_subscribe (sigcon : option DBusGConnection)
  : M (option DBusGProxy) :=
  l <- g_main_loop_new None false_ ;;
  modify (set_mainloop l) ;;
  proxy <- dbus_g_proxy_new_for_name sigcon "org.freedesktop.DBus"
             "/org/freedesktop/DBus" "org.freedesktop.DBus" ;;
  dbus_g_proxy_add_signal proxy "NameLost" [G_TYPE_STRING] ;;
  dbus_g_proxy_connect_signal proxy "NameLost" fn_onNameLost None ;;
  g_timeout_add 1000 fn_releaseName
    (match sigcon with Some c => Some (Obj_gconnection c) | None => None end) ;;
  ret proxy.

(** [int main()] *)
Definition main : M Z :=
  sigcon <- main_acquire ;;
  proxy <- main_subscribe sigcon ;;
  l <- get mainloop ;;
  g_main_loop_run call_source call_handler (loop_events w) l ;;
  g_object_unref
    (match proxy with Some p => Some (Obj_proxy p) | None => None end) ;;
  ret 0.
End Program.

(** ** A run of the process *)

Inductive Outcome :=
| Exited (status : Z)      (* main returned, or exit() was called *)
| Crashed (f : Fault)
| Hung.

Definition run (w : World) : Outcome * list Event :=
  match main w initial with
  | Ok status s => (Exited status, trace s)
  | Exit status s => (Exited status, trace s)
  | Crash f s => (Crashed f, trace s)
  | Hang s => (Hung, trace s)
  end.

Definition outcome (w : World) : Outcome := fst (run w).
Definition events (w : World) : list Event := snd (run w).

(** The lines written, in the order they were written. *)
Fixpoint printed (t : list Event) : list (Stream * string) :=
  match t with
  | [] => []
  | Print fd text :: t' => (fd, text) :: printed t'
  | _ :: t' => printed t'
  end.

(** ** Worlds used as examples *)

Definition NameLost_signal (name : string) : Signal :=
  {| sg_sender := "org.freedesktop.DBus"; sg_path := "/org/freedesktop/DBus";
     sg_interface := "org.freedesktop.DBus"; sg_member := "NameLost";
     sg_args := [V_string name] |}.

(** The session bus works: the name is granted, released after a second,
    and the daemon reports the loss. *)
Definition happy_world : World :=
  {| bus_get_reply := (Some {| gconn_id := 0 |}, None);
     request_name_reply := DBUS_REQUEST_NAME_REPLY_PRIMARY_OWNER;
     release_name_reply := fun n =>
       match n with
       | O => DBUS_RELEASE_NAME_REPLY_RELEASED
       | _ => DBUS_RELEASE_NAME_REPLY_NOT_OWNER
       end;
     loop_events := [Elapse 400; Elapse 600; Emit (NameLost_signal the_name);
                     Elapse 1000] |}.

(** No session bus. *)
Definition no_bus_world : World :=
  {| bus_get_reply := (None, Some {| g_code := 0;
                          g_message := "Unable to determine the address of the message bus" |});
     request_name_reply := 0;
     release_name_reply := fun _ => 0;
     loop_events := [] |}.

(** The daemon cannot be asked for the name: the request returns -1. *)
Definition refused_world : World :=
  {| bus_get_reply := (Some {| gconn_id := 0 |}, None);
     request_name_reply := -1;
     release_name_reply := fun _ => -1;
     loop_events := [Elapse 1000; Elapse 1000] |}.

(** The name is already taken and nobody ever loses it: no NameLost. *)
Definition taken_world : World :=
  {| bus_get_reply := (Some {| gconn_id := 0 |}, None);
     request_name_reply := DBUS_REQUEST_NAME_REPLY_EXISTS;
     release_name_reply := fun _ => DBUS_RELEASE_NAME_REPLY_NOT_OWNER;
     loop_events := [Elapse 1000; Elapse 1000; Elapse 1000] |}.

(** * Vocabulary of the properties *)

(** ** The lines of the program, named *)

Definition line_lost : string := fmt ["!!! We lost our Name !!!"; nl].
Definition line_own : string :=
  fmt ["dbus_bus_request_name(): We now own the name org.DBusTest.SignalTest!"; nl].
Definition line_released : string :=
  fmt ["releaseName(): Name org.DBusTest.SignalTest was released successfully"; nl].
Definition line_unknown_exit (retval : Z) : string :=
  fmt ["releaseName(): Unknown exit status "; fmt_d retval; nl].
Definition line_fishy : string :=
  fmt ["releaseName(): Something fishy. We got an exit status of -1 but error == NULL!"; nl].
Definition line_could_not_release (e : DBusError) : string :=
  fmt ["Could not release name org.DBusTest.SignalTest: "; e_message e; nl].
Definition line_may_not_terminate : string :=
  fmt ["This program may not terminate..."; nl].
Definition line_failed_to_connect (e : GError) : string :=
  fmt ["Failed to connect to Session bus: "; g_message e; nl].

(** What [releaseName_report] writes when [error] is NULL. *)
Definition report_lines (retval : Z) : list string :=
  (if retval =? DBUS_RELEASE_NAME_REPLY_RELEASED then line_released
   else if retval =? DBUS_RELEASE_NAME_REPLY_NOT_OWNER then
     fmt ["releaseName(): Name org.DBusTest.SignalTest is not owned by this app!"; nl]
   else if retval =? DBUS_RELEASE_NAME_REPLY_NON_EXISTENT then
     fmt ["releaseName(): Name org.DBusTest.SignalTest does not exist!"; nl]
   else line_unknown_exit retval)
  :: (if retval =? -1 then [line_fishy] else []).

(** The events a callback of this program can add to the trace. *)
Definition callback_event (e : Event) : bool :=
  match e with
  | Print _ _ => true
  | Call (c_dbus_bus_release_name _ _ _) => true
  | Call (c_g_main_loop_quit _) => true
  | _ => false
  end.

(** [grows s s' added]: from [s] to [s'] the trace grew by [added], all of
    it written by callbacks; every release used up a timeout source; and
    the set of running loops changed only if [onNameLost] ran. *)
Record grows (s s' : State) (added : list Event) : Prop := {
  g_trace : trace s' = trace s ++ added;
  g_kind : forallb callback_event added = true;
  g_count : (releases added + length (timeouts s') <= length (timeouts s))%nat;
  g_quit : running s' = running s \/ In (Print Stdout line_lost) added
}.

(** The objects [main] creates, by the ids the allocator gives them: the
    loop first, then the proxy, then the timeout source. *)
Definition the_loop : GMainLoop := {| loop_id := 1 |}.

Definition the_proxy (gc : DBusGConnection) : DBusGProxy :=
  {| proxy_id := 2; proxy_connection := Some gc;
     proxy_name := "org.freedesktop.DBus"; proxy_path := "/org/freedesktop/DBus";
     proxy_interface := "org.freedesktop.DBus" |}.

Definition the_handler (gc : DBusGConnection) : Handler :=
  {| h_proxy := the_proxy gc; h_signal := "NameLost";
     h_func := fn_onNameLost; h_data := None |}.

Definition the_timeout (gc : DBusGConnection) : Timeout :=
  {| src_id := 3; src_interval := 1000; src_due := 1000;
     src_func := fn_releaseName; src_data := Some (Obj_gconnection gc) |}.

(** The trace of [main] before anything is written. *)
Definition connect_trace (gc : DBusGConnection) : list Event :=
  [Call c_g_type_init;
   Call (c_dbus_g_bus_get DBUS_BUS_SESSION);
   Call (c_dbus_g_connection_get_connection (Some gc));
   Call (c_dbus_bus_request_name (Some {| conn_id := gconn_id gc |}) the_name
           DBUS_NAME_FLAG_ALLOW_REPLACEMENT None)].

(** The calls between the [switch] and [g_main_loop_run]. *)
Definition subscribe_trace (gc : DBusGConnection) : list Event :=
  [Call c_g_main_loop_new;
   Call (c_dbus_g_proxy_new_for_name (Some gc) "org.freedesktop.DBus"
           "/org/freedesktop/DBus" "org.freedesktop.DBus");
   Call (c_dbus_g_proxy_add_signal (Some (the_proxy gc)) "NameLost" [G_TYPE_STRING]);
   Call (c_dbus_g_proxy_connect_signal (Some (the_proxy gc)) "NameLost"
           fn_onNameLost None);
   Call (c_g_timeout_add 1000 fn_releaseName (Some (Obj_gconnection gc)))].

(** The state in which [g_main_loop_run] is called, [line] being what the
    [switch] wrote. *)
Definition entry_state (gc : DBusGConnection) (line : string) : State :=
  {| trace := connect_trace gc ++ Print Stderr line :: subscribe_trace gc;
     mainloop := Some the_loop;
     con := Some {| conn_id := gconn_id gc |};
     clock := 0%N; fresh := 4%nat; running := [];
     timeouts := [the_timeout gc];
     declared := [(2%nat, "NameLost", [G_TYPE_STRING])];
     handlers := [the_handler gc] |}.

(** The trace when [g_main_loop_run] has just been entered. *)
Definition entry_trace (gc : DBusGConnection) (line : string) : list Event :=
  connect_trace gc ++ Print Stderr line :: subscribe_trace gc
    ++ [Call (c_g_main_loop_run (Some the_loop))].

(** The state in which the first iteration of the loop starts. *)
Definition loop_state (gc : DBusGConnection) (line : string) : State :=
  set_running [loop_id the_loop]
    (set_trace (entry_trace gc line) (entry_state gc line)).

(** What [main] does after the loop returned. *)
Definition cleanup_trace (gc : DBusGConnection) : list Event :=
  [LoopReturned (Some the_loop);
   Call (c_g_object_unref (Some (Obj_proxy (the_proxy gc))))].

(** The five ways a run can go, each with its outcome and its trace;
    [added] is what the callbacks wrote while the loop ran. *)
Inductive RunShape (w : World) : Prop :=
| shape_no_error :
    bus_get_reply w = (None, None) ->
    run w = (Crashed (NullDeref "error -> message"),
             [Call c_g_type_init; Call (c_dbus_g_bus_get DBUS_BUS_SESSION)]) ->
    RunShape w
| shape_no_bus (e : GError) :
    bus_get_reply w = (None, Some e) ->
    run w = (Exited 1,
             [Call c_g_type_init; Call (c_dbus_g_bus_get DBUS_BUS_SESSION);
              Print Stderr (line_failed_to_connect e);
              Call (c_g_error_free (Some e)); Call (c_exit 1)]) ->
    RunShape w
| shape_refused (gc : DBusGConnection) (oe : option GError) :
    bus_get_reply w = (Some gc, oe) ->
    as_int (request_name_reply w) = -1 ->
    run w = (Crashed (NullDeref "dbuserror -> message"), connect_trace gc) ->
    RunShape w
| shape_hung (gc : DBusGConnection) (oe : option GError) (line : string)
    (added : list Event) :
    bus_get_reply w = (Some gc, oe) ->
    as_int (request_name_reply w) <> -1 ->
    forallb callback_event added = true ->
    (releases added <= 1)%nat ->
    run w = (Hung, entry_trace gc line ++ added) ->
    RunShape w
| shape_done (gc : DBusGConnection) (oe : option GError) (line : string)
    (added : list Event) :
    bus_get_reply w = (Some gc, oe) ->
    as_int (request_name_reply w) <> -1 ->
    forallb callback_event added = true ->
    (releases added <= 1)%nat ->
    In (Print Stdout line_lost) added ->
    run w = (Exited 0, entry_trace gc line ++ added ++ cleanup_trace gc) ->
    RunShape w.

(** Selectors for two kinds of library call in a trace. *)
Definition is_timeout_add (e : Event) : bool :=
  match e with
  | Call (c_g_timeout_add _ _ _) => true
  | _ => false
  end.


(** ** Vocabulary for whole runs *)

(** Like [happy_world], but the name is owned by somebody else. *)
Definition unowned_world : World :=
  {| bus_get_reply := (Some {| gconn_id := 0 |}, None);
     request_name_reply := DBUS_REQUEST_NAME_REPLY_EXISTS;
     release_name_reply := release_name_reply happy_world;
     loop_events := loop_events happy_world |}.

(** The daemon reports a lost name 300 ms after the loop started. *)
Definition replaced_world : World :=
  {| bus_get_reply := (Some {| gconn_id := 0 |}, None);
     request_name_reply := DBUS_REQUEST_NAME_REPLY_PRIMARY_OWNER;
     release_name_reply := fun _ => DBUS_RELEASE_NAME_REPLY_RELEASED;
     loop_events := [Elapse 300; Emit (NameLost_signal the_name); Elapse 900] |}.

(** The daemon's NameAcquired signal, which the proxy has no handler for. *)
Definition NameAcquired_signal (name : string) : Signal :=
  {| sg_sender := "org.freedesktop.DBus"; sg_path := "/org/freedesktop/DBus";
     sg_interface := "org.freedesktop.DBus"; sg_member := "NameAcquired";
     sg_args := [V_string name] |}.

(** As a session bus behaves: NameAcquired for the unique name and for the
    requested name come first; the loss is reported after the release. *)
Definition daemon_world : World :=
  {| bus_get_reply := (Some {| gconn_id := 0 |}, None);
     request_name_reply := DBUS_REQUEST_NAME_REPLY_PRIMARY_OWNER;
     release_name_reply := fun _ => DBUS_RELEASE_NAME_REPLY_RELEASED;
     loop_events := [Emit (NameAcquired_signal ":1.42");
                     Emit (NameAcquired_signal the_name);
                     Elapse 1000;
                     Emit (NameLost_signal the_name)] |}.

(** The signals that the subscription made by [main] hands to [onNameLost]:
    sent by "org.freedesktop.DBus" from "/org/freedesktop/DBus", interface
    "org.freedesktop.DBus", member "NameLost", one string argument. *)
Definition is_NameLost (sg : Signal) : bool :=
  String.eqb "org.freedesktop.DBus" (sg_sender sg)
  && String.eqb "/org/freedesktop/DBus" (sg_path sg)
  && String.eqb "org.freedesktop.DBus" (sg_interface sg)
  && String.eqb "NameLost" (sg_member sg)
  && signature_eqb [G_TYPE_STRING] (map type_of (sg_args sg)).

Definition delivers_NameLost (ev : LoopEvent) : bool :=
  match ev with
  | Elapse _ => false
  | Emit sg => is_NameLost sg
  end.

(** The loop events that come before the first NameLost signal. *)
Fixpoint before_NameLost (evs : list LoopEvent) : list LoopEvent :=
  match evs with
  | [] => []
  | ev :: evs' => if delivers_NameLost ev then [] else ev :: before_NameLost evs'
  end.

(** The time that passes over a sequence of loop events. *)
Fixpoint elapsed (evs : list LoopEvent) : N :=
  match evs with
  | [] => 0
  | Elapse ms :: evs' => ms + elapsed evs'
  | Emit _ :: evs' => elapsed evs'
  end%N.

(** What the first call of [releaseName] adds to the trace. *)
Definition release_events (w : World) (gc : DBusGConnection) : list Event :=
  Call (c_dbus_bus_release_name (Some {| conn_id := gconn_id gc |}) the_name None)
    :: map (Print Stderr) (report_lines (as_int (release_name_reply w 0))).

(** What [onNameLost] adds to the trace once [mainloop] is set. *)
Definition quit_events : list Event :=
  [Print Stdout line_lost; Call (c_g_main_loop_quit (Some the_loop))].

(** What the callbacks write while the loop consumes [evs], and whether the
    loop returns: [rel] is what the timer's callback writes, [pending]
    tells whether the timer is still to fire, [c] is the clock. *)
Fixpoint loop_log (rel : list Event) (pending : bool) (c : N)
    (evs : list LoopEvent) : list Event * bool :=
  match evs with
  | [] => ([], false)
  | Elapse ms :: evs' =>
      if pending && (1000 <=? c + ms)%N
      then (rel ++ fst (loop_log rel false (c + ms) evs'),
            snd (loop_log rel false (c + ms) evs'))
      else loop_log rel pending (c + ms) evs'
  | Emit sg :: evs' =>
      if is_NameLost sg then (quit_events, true)
      else loop_log rel pending c evs'
  end.

(** The loop runs with the timer pending, the clock at [c]; [line] is what
    the [switch] of [main] wrote. *)
Definition armed (gc : DBusGConnection) (line : string) (c : N) : State :=
  set_clock c (loop_state gc line).

(** The timer has fired; its callback wrote [rel]. *)
Definition fired (gc : DBusGConnection) (line : string) (rel : list Event) (c : N)
  : State :=
  set_timeouts [] (set_trace (entry_trace gc line ++ rel) (armed gc line c)).

(** [onNameLost] has run in state [s]. *)
Definition quit_of (s : State) : State :=
  set_running [] (set_trace (trace s ++ quit_events) s).

(** What went to standard output. *)
Fixpoint stdout_of (t : list Event) : list string :=
  match t with
  | [] => []
  | Print Stdout text :: t' => text :: stdout_of t'
  | _ :: t' => stdout_of t'
  end.

Definition is_request (e : Event) : bool :=
  match e with
  | Call (c_dbus_bus_request_name _ _ _ _) => true
  | _ => false
  end.

Definition is_bus_get (e : Event) : bool :=
  match e with
  | Call (c_dbus_g_bus_get _) => true
  | _ => false
  end.

(** * Properties *)

(** ** Traces *)

Lemma releases_app (a b : list Event) :
  releases (a ++ b) = (releases a + releases b)%nat.
Proof.
  unfold releases. rewrite filter_app, length_app. reflexivity.
Qed.

Lemma not_running_after_quit (l : GMainLoop) (r : list nat) :
  existsb (Nat.eqb (loop_id l))
    (filter (fun i => negb (Nat.eqb i (loop_id l))) r) = false.
Proof.
  induction r as [|i r IH]; simpl; [reflexivity|].
  destruct (Nat.eqb i (loop_id l)) eqn:E; simpl; [exact IH|].
  rewrite Nat.eqb_sym, E. exact IH.
Qed.

(** ** The model at work *)

Example happy_run :
  outcome happy_world = Exited 0
  /\ printed (events happy_world)
     = [(Stderr, line_own); (Stderr, line_released); (Stdout, line_lost)].
Proof. split; reflexivity. Qed.

Example taken_run :
  outcome taken_world = Hung
  /\ printed (events taken_world)
     = [(Stderr, fmt ["dbus_bus_request_name(): :-( The name we asked for already exists!"; nl]);
        (Stderr, fmt ["releaseName(): Name org.DBusTest.SignalTest is not owned by this app!"; nl])]
  /\ releases (events taken_world) = 1%nat.
Proof. repeat split; reflexivity. Qed.

(** ** onNameLost *)

(** C7.  Whatever the state in which [onNameLost] is called, it returns
    normally, having written the loss notice to stdout and then called
    [g_main_loop_quit] on the global [mainloop]; nothing else is touched,
    and the loop that [mainloop] points to is no longer running. *)
Theorem onNameLost_prints_and_quits (s : State) :
  exists s',
    onNameLost s = Ok tt s'
    /\ trace s' = trace s ++ [Print Stdout line_lost;
                              Call (c_g_main_loop_quit (mainloop s))]
    /\ match mainloop s with
       | Some l => is_running l s' = false
       | None => running s' = running s
       end
    /\ mainloop s' = mainloop s /\ con s' = con s
    /\ timeouts s' = timeouts s /\ handlers s' = handlers s.
Proof.
  unfold onNameLost, g_print, g_main_loop_quit, bind, get, emit, modify, ret.
  destruct (mainloop s) as [l|] eqn:Hl; simpl; rewrite Hl; simpl.
  - eexists; split; [reflexivity|]. simpl.
    rewrite <- app_assoc. simpl.
    repeat split; try reflexivity; try assumption.
    unfold is_running; simpl. apply not_running_after_quit.
  - eexists; split; [reflexivity|]. simpl.
    rewrite <- app_assoc. simpl.
    repeat split; try reflexivity; assumption.
Qed.

(** ** releaseName *)

Lemma releaseName_report_null (retval : Z) (s : State) :
  releaseName_report retval None s
  = Ok tt (set_trace (trace s ++ map (Print Stderr) (report_lines retval)) s).
Proof.
  unfold releaseName_report, report_lines, g_printerr, bind, emit, modify, ret.
  destruct (retval =? DBUS_RELEASE_NAME_REPLY_RELEASED);
    [|destruct (retval =? DBUS_RELEASE_NAME_REPLY_NOT_OWNER);
      [|destruct (retval =? DBUS_RELEASE_NAME_REPLY_NON_EXISTENT)]];
    destruct (retval =? -1); simpl;
    unfold set_trace; simpl; rewrite <- ?app_assoc; reflexivity.
Qed.

Lemma report_lines_failure : report_lines (-1) = [line_unknown_exit (-1); line_fishy].
Proof. reflexivity. Qed.

Lemma report_lines_prefix (retval : Z) (l : string) :
  In l (report_lines retval) ->
  exists rest, l = String "r" (String "e" rest).
Proof.
  unfold report_lines.
  destruct (retval =? DBUS_RELEASE_NAME_REPLY_RELEASED);
    [|destruct (retval =? DBUS_RELEASE_NAME_REPLY_NOT_OWNER);
      [|destruct (retval =? DBUS_RELEASE_NAME_REPLY_NON_EXISTENT)]];
    destruct (retval =? -1); simpl; intros H;
    repeat (destruct H as [H|H]; [subst l; eexists; reflexivity|]);
    contradiction.
Qed.

Lemma releaseName_runs (w : World) (data : gpointer) (s : State) :
  releaseName w data s
  = Ok false
      (set_trace
         (trace s ++ Call (c_dbus_bus_release_name (con s) the_name None)
            :: map (Print Stderr)
                 (report_lines (as_int (release_name_reply w (releases (trace s))))))
         s).
Proof.
  unfold releaseName, dbus_bus_release_name, bind, get, emit, modify, ret.
  rewrite releaseName_report_null. simpl.
  unfold set_trace; simpl. rewrite <- app_assoc. reflexivity.
Qed.

(** C10.  [releaseName] always hands NULL to [dbus_bus_release_name] as the
    error pointer and returns FALSE; after the call it writes to stderr
    only.  When the release answers -1 the lines are the default line of
    the [switch] followed by the "Something fishy" line; in no case is the
    "Could not release name ..." line or the "This program may not
    terminate..." line written, and [dbus_error_free] is not called. *)
Theorem releaseName_error_always_null (w : World) (data : gpointer) (s : State) :
  exists s' lines,
    releaseName w data s = Ok false s'
    /\ trace s' = trace s ++ Call (c_dbus_bus_release_name (con s) the_name None)
                    :: map (Print Stderr) lines
    /\ (as_int (release_name_reply w (releases (trace s))) = -1 ->
        lines = [line_unknown_exit (-1); line_fishy])
    /\ ~ In line_may_not_terminate lines
    /\ (forall e, ~ In (line_could_not_release e) lines).
Proof.
  rewrite releaseName_runs.
  eexists; eexists; split; [reflexivity|]. split; [reflexivity|].
  split; [intros ->; apply report_lines_failure|].
  split; [|intros e]; intros H; apply report_lines_prefix in H;
    destruct H as [rest H]; discriminate H.
Qed.

Lemma releaseName_error_always_null_witness :
  exists s',
    releaseName refused_world None initial = Ok false s'
    /\ printed (trace s') = [(Stderr, line_unknown_exit (-1)); (Stderr, line_fishy)].
Proof.
  destruct (releaseName_error_always_null refused_world None initial)
    as (s' & lines & Hrun & Htrace & Hfail & _).
  exists s'. split; [exact Hrun|].
  rewrite Htrace, (Hfail eq_refl). reflexivity.
Defined.

(** C3.  After a release that returned -1 (the [switch] has then taken its
    default case), the code branches on the error pointer: NULL gives the
    "Something fishy" line; a pointer to an error gives the line with the
    error's message, then the "This program may not terminate..." line,
    and frees the error.  An invocation of [releaseName] whose release call
    returns -1 goes through this code with the pointer it holds. *)
Theorem releaseName_failure_branches :
  (forall (error : option DBusError) (s : State),
      releaseName_report (-1) error s
      = Ok tt
          (set_trace
             (trace s ++ Print Stderr (line_unknown_exit (-1))
                :: match error with
                   | None => [Print Stderr line_fishy]
                   | Some e => [Print Stderr (line_could_not_release e);
                                Print Stderr line_may_not_terminate;
                                Call (c_dbus_error_free (Some e))]
                   end) s))
  /\ (forall (w : World) (data : gpointer) (s : State),
         as_int (release_name_reply w (releases (trace s))) = -1 ->
         exists s',
           releaseName w data s = Ok false s'
           /\ trace s' = trace s ++ [Call (c_dbus_bus_release_name (con s) the_name None);
                                     Print Stderr (line_unknown_exit (-1));
                                     Print Stderr line_fishy]).
Proof.
  split.
  - intros [e|] s.
    + unfold releaseName_report, g_printerr, dbus_error_free, deref, bind, emit,
        modify, ret; simpl.
      unfold set_trace; simpl. rewrite <- !app_assoc. reflexivity.
    + rewrite releaseName_report_null. reflexivity.
  - intros w data s H. rewrite releaseName_runs, H.
    eexists; split; reflexivity.
Qed.

Lemma releaseName_failure_branches_witness :
  exists s',
    releaseName refused_world None initial = Ok false s'
    /\ trace s' = [Call (c_dbus_bus_release_name None the_name None);
                   Print Stderr (line_unknown_exit (-1));
                   Print Stderr line_fishy].
Proof.
  exact (proj2 releaseName_failure_branches refused_world None initial eq_refl).
Defined.

(** ** The main loop running the program's callbacks *)

Lemma grows_refl (s : State) : grows s s [].
Proof.
  split; simpl; auto. rewrite app_nil_r. reflexivity.
Qed.

Lemma grows_trans (s s1 s2 : State) (a b : list Event) :
  grows s s1 a -> grows s1 s2 b -> grows s s2 (a ++ b).
Proof.
  intros [Ta Ka Ca Qa] [Tb Kb Cb Qb]. split.
  - rewrite Tb, Ta, app_assoc. reflexivity.
  - rewrite forallb_app, Ka, Kb. reflexivity.
  - rewrite releases_app. lia.
  - destruct Qb as [Qb|Qb]; [destruct Qa as [Qa|Qa]|].
    + left. congruence.
    + right. apply in_or_app. left. exact Qa.
    + right. apply in_or_app. right. exact Qb.
Qed.

Lemma onNameLost_grows (s : State) :
  exists s' added, onNameLost s = Ok tt s' /\ grows s s' added.
Proof.
  unfold onNameLost, g_print, g_main_loop_quit, bind, get, emit, modify, ret.
  destruct (mainloop s) as [l|] eqn:Hl; simpl; rewrite Hl; simpl;
    eexists; exists [Print Stdout line_lost; Call (c_g_main_loop_quit (mainloop s))];
    (split; [reflexivity|]);
    (split; simpl; [rewrite <- app_assoc, Hl; reflexivity | reflexivity | lia
                   | right; left; reflexivity]).
Qed.

Lemma forallb_map_Print (fd : Stream) (ls : list string) :
  forallb callback_event (map (Print fd) ls) = true.
Proof. induction ls; simpl; auto. Qed.

Lemma releases_map_Print (fd : Stream) (ls : list string) :
  releases (map (Print fd) ls) = 0%nat.
Proof. induction ls; simpl; auto. Qed.

Lemma releases_release_lines (c : option DBusConnection) (n : string)
    (e : option DBusError) (ls : list string) :
  releases (Call (c_dbus_bus_release_name c n e) :: map (Print Stderr) ls) = 1%nat.
Proof.
  change (S (releases (map (Print Stderr) ls)) = 1%nat).
  rewrite releases_map_Print. reflexivity.
Qed.

Lemma destroy_shrinks (id : nat) (ts : list Timeout) :
  existsb (fun t => Nat.eqb (src_id t) id) ts = true ->
  (S (length (filter (fun t => negb (Nat.eqb (src_id t) id)) ts)) <= length ts)%nat.
Proof.
  induction ts as [|t ts IH]; simpl; [discriminate|].
  destruct (Nat.eqb (src_id t) id) eqn:E; simpl.
  - intros _. pose proof (filter_length_le (fun t => negb (Nat.eqb (src_id t) id)) ts).
    lia.
  - intros H. apply IH in H. lia.
Qed.

Section Callbacks.
Variable w : World.

Lemma dispatch_timeouts_grows (ready : list Timeout) :
  forall s, exists s' added,
    dispatch_timeouts (call_source w) ready s = Ok tt s' /\ grows s s' added.
Proof.
  induction ready as [|t ready IH]; intros s; simpl.
  - exists s, []. split; [reflexivity|apply grows_refl].
  - unfold bind at 1. unfold get at 1.
    destruct (alive (src_id t) s) eqn:Halive.
    + unfold bind at 1. unfold bind at 1.
      destruct (src_func t); simpl. rewrite releaseName_runs.
      unfold false_, g_source_destroy, modify.
      match goal with |- context [dispatch_timeouts _ ready ?s1] =>
        destruct (IH s1) as (s' & b & Hrun & Hb);
        assert (Ha : grows s s1
                  (Call (c_dbus_bus_release_name (con s) the_name None)
                     :: map (Print Stderr)
                          (report_lines
                             (as_int (release_name_reply w (releases (trace s)))))))
      end.
      { split; cbn [trace timeouts running set_trace set_timeouts].
        - reflexivity.
        - apply forallb_map_Print.
        - rewrite releases_release_lines. apply destroy_shrinks. exact Halive.
        - left; reflexivity. }
      eexists; eexists; split; [exact Hrun|].
      eapply grows_trans; eassumption.
    + unfold bind, ret; simpl. apply IH.
Qed.

Lemma dispatch_signal_grows (sg : Signal) (hs : list Handler) :
  forall s, exists s' added,
    dispatch_signal (call_handler) sg hs s = Ok tt s' /\ grows s s' added.
Proof.
  induction hs as [|h hs IH]; intros s; simpl.
  - exists s, []. split; [reflexivity|apply grows_refl].
  - unfold bind at 1. destruct (h_func h); simpl.
    destruct (onNameLost_grows s) as (s1 & a & Hrun1 & Ha). rewrite Hrun1.
    destruct (IH s1) as (s' & b & Hrun & Hb).
    eexists; eexists; split; [exact Hrun|].
    eapply grows_trans; eassumption.
Qed.

Lemma iteration_grows (ev : LoopEvent) (s : State) :
  exists s' added,
    iteration (call_source w) call_handler ev s = Ok tt s' /\ grows s s' added.
Proof.
  destruct ev as [ms|sg]; simpl; unfold bind, modify, get.
  - match goal with |- context [dispatch_timeouts _ ?r ?s1] =>
      destruct (dispatch_timeouts_grows r s1) as (s' & a & Hrun & [T K C Q])
    end.
    exists s', a. split; [exact Hrun|]. split; assumption.
  - apply dispatch_signal_grows.
Qed.

(** A loop either returns, and then it is no longer running, or blocks. *)
Lemma iterate_grows (l : GMainLoop) (evs : list LoopEvent) :
  forall s, exists s' added,
    grows s s' added
    /\ ((iterate (call_source w) call_handler l evs s = Ok tt s'
         /\ is_running l s' = false)
        \/ iterate (call_source w) call_handler l evs s = Hang s').
Proof.
  induction evs as [|ev evs IH]; intros s; simpl.
  - destruct (is_running l s) eqn:R; exists s, [];
      (split; [apply grows_refl|]); auto.
  - destruct (is_running l s) eqn:R.
    + unfold bind.
      destruct (iteration_grows ev s) as (s1 & a & Hrun1 & Ha). rewrite Hrun1.
      destruct (IH s1) as (s' & b & Hb & Hres).
      exists s', (a ++ b). split; [eapply grows_trans; eassumption|exact Hres].
    + exists s, []. split; [apply grows_refl|]. auto.
Qed.
End Callbacks.

(** ** main, from start to the main loop *)

Lemma request_report_writes (retval : Z) (s : State) :
  retval <> -1 ->
  exists line,
    request_report retval None s = Ok tt (set_trace (trace s ++ [Print Stderr line]) s)
    /\ (retval = DBUS_REQUEST_NAME_REPLY_PRIMARY_OWNER -> line = line_own).
Proof.
  intros Hr. unfold request_report, g_printerr, emit, modify.
  destruct (retval =? -1) eqn:E; [apply Z.eqb_eq in E; contradiction|].
  destruct (retval =? DBUS_REQUEST_NAME_REPLY_PRIMARY_OWNER) eqn:E1.
  { eexists; split; [reflexivity|reflexivity]. }
  apply Z.eqb_neq in E1.
  destruct (retval =? DBUS_REQUEST_NAME_REPLY_IN_QUEUE);
    [|destruct (retval =? DBUS_REQUEST_NAME_REPLY_EXISTS);
      [|destruct (retval =? DBUS_REQUEST_NAME_REPLY_ALREADY_OWNER)]];
    (eexists; split; [reflexivity|intros; contradiction]).
Qed.

Section Startup.
Variable w : World.

Lemma main_no_error :
  bus_get_reply w = (None, None) ->
  main w initial
  = Crash (NullDeref "error -> message")
      (set_trace [Call c_g_type_init; Call (c_dbus_g_bus_get DBUS_BUS_SESSION)]
         initial).
Proof.
  intros H. unfold main, main_acquire, dbus_g_bus_get, bind. simpl.
  rewrite H. reflexivity.
Qed.

Lemma main_no_bus (e : GError) :
  bus_get_reply w = (None, Some e) ->
  main w initial
  = Exit 1
      (set_trace [Call c_g_type_init; Call (c_dbus_g_bus_get DBUS_BUS_SESSION);
                  Print Stderr (line_failed_to_connect e);
                  Call (c_g_error_free (Some e)); Call (c_exit 1)]
         initial).
Proof.
  intros H. unfold main, main_acquire, dbus_g_bus_get, bind. simpl.
  rewrite H. reflexivity.
Qed.

Lemma main_refused (gc : DBusGConnection) (oe : option GError) :
  bus_get_reply w = (Some gc, oe) ->
  as_int (request_name_reply w) = -1 ->
  main w initial
  = Crash (NullDeref "dbuserror -> message")
      (set_con (Some {| conn_id := gconn_id gc |})
         (set_trace (connect_trace gc) initial)).
Proof.
  intros H Hr. unfold main, main_acquire, dbus_g_bus_get, dbus_bus_request_name, bind.
  simpl. rewrite H. simpl. rewrite Hr. reflexivity.
Qed.

Lemma main_acquire_ok (gc : DBusGConnection) (oe : option GError) :
  bus_get_reply w = (Some gc, oe) ->
  as_int (request_name_reply w) <> -1 ->
  exists line,
    (as_int (request_name_reply w) = DBUS_REQUEST_NAME_REPLY_PRIMARY_OWNER ->
     line = line_own)
    /\ main_acquire w initial
       = Ok (Some gc)
           (set_con (Some {| conn_id := gconn_id gc |})
              (set_trace (connect_trace gc ++ [Print Stderr line]) initial)).
Proof.
  intros H Hr. unfold main_acquire, dbus_g_bus_get, dbus_bus_request_name, bind.
  simpl. rewrite H. simpl.
  match goal with |- context [request_report ?r None ?s] =>
    destruct (request_report_writes r s Hr) as (line & Heq & Hline); rewrite Heq
  end.
  exists line. split; [exact Hline|reflexivity].
Qed.

Lemma main_enters_loop (gc : DBusGConnection) (oe : option GError) :
  bus_get_reply w = (Some gc, oe) ->
  as_int (request_name_reply w) <> -1 ->
  exists line,
    (as_int (request_name_reply w) = DBUS_REQUEST_NAME_REPLY_PRIMARY_OWNER ->
     line = line_own)
    /\ main w initial
       = (g_main_loop_run (call_source w) call_handler (loop_events w) (Some the_loop) ;;
          g_object_unref (Some (Obj_proxy (the_proxy gc))) ;;
          ret 0) (entry_state gc line).
Proof.
  intros H Hr.
  destruct (main_acquire_ok gc oe H Hr) as (line & Hline & Heq).
  exists line. split; [exact Hline|].
  unfold main. unfold bind at 1. rewrite Heq. reflexivity.
Qed.
End Startup.

(** ** The shapes a run can have *)

Lemma g_main_loop_run_entry (cs : GSourceFunc -> gpointer -> M bool)
    (ch : GCallback -> list GValue -> gpointer -> M unit)
    (evs : list LoopEvent) (gc : DBusGConnection) (line : string) :
  g_main_loop_run cs ch evs (Some the_loop) (entry_state gc line)
  = match iterate cs ch the_loop evs (loop_state gc line) with
    | Ok _ s' => Ok tt (set_trace (trace s' ++ [LoopReturned (Some the_loop)]) s')
    | Exit n s' => Exit n s'
    | Crash f s' => Crash f s'
    | Hang s' => Hang s'
    end.
Proof. reflexivity. Qed.

Lemma run_shape (w : World) : RunShape w.
Proof.
  destruct (bus_get_reply w) as [[gc|] oe] eqn:Hbus.
  - destruct (Z.eq_dec (as_int (request_name_reply w)) (-1)) as [Hr|Hr].
    + eapply shape_refused; [exact Hbus|exact Hr|].
      unfold run. rewrite (main_refused w gc oe Hbus Hr). reflexivity.
    + destruct (main_enters_loop w gc oe Hbus Hr) as (line & _ & Hmain).
      destruct (iterate_grows w the_loop (loop_events w) (loop_state gc line))
        as (s' & added & [T K C Q] & Hres).
      assert (Hcount : (releases added <= 1)%nat) by (simpl in C; lia).
      unfold bind at 1 in Hmain. rewrite g_main_loop_run_entry in Hmain.
      destruct Hres as [[Hok Hstop]|Hhang].
      * rewrite Hok in Hmain.
        eapply shape_done with (added := added); try eassumption.
        -- destruct Q as [Q|Q]; [|exact Q].
           unfold is_running in Hstop. rewrite Q in Hstop. discriminate Hstop.
        -- unfold run. rewrite Hmain.
           unfold bind, emit, g_object_unref, modify, ret; simpl.
           rewrite T. simpl. rewrite <- !app_assoc. reflexivity.
      * rewrite Hhang in Hmain.
        eapply shape_hung with (added := added); try eassumption.
        unfold run. rewrite Hmain. simpl. rewrite T. reflexivity.
  - destruct oe as [e|].
    + eapply shape_no_bus; [exact Hbus|].
      unfold run. rewrite (main_no_bus w e Hbus). reflexivity.
    + eapply shape_no_error; [exact Hbus|].
      unfold run. rewrite (main_no_error w Hbus). reflexivity.
Qed.

(** ** One iteration of the loop *)

Lemma iterate_step (cs : GSourceFunc -> gpointer -> M bool)
    (ch : GCallback -> list GValue -> gpointer -> M unit)
    (l : GMainLoop) (ev : LoopEvent) (evs : list LoopEvent) (s s1 : State) :
  is_running l s = true ->
  iteration cs ch ev s = Ok tt s1 ->
  iterate cs ch l (ev :: evs) s = iterate cs ch l evs s1.
Proof.
  intros R H. simpl. rewrite R. unfold bind. rewrite H. reflexivity.
Qed.

(** ** Failure to connect *)

(** C2.  When [dbus_g_bus_get] returns no connection (and, as GLib's error
    convention has it, an error), the run consists of: [g_type_init], the
    [dbus_g_bus_get] call, one stderr line "Failed to connect to Session
    bus: " followed by the error's message, [g_error_free], [exit(1)].  The
    exit status is 1 and there is no other library call: no name request,
    no subscription, no release. *)
Theorem no_bus_exits_with_1 (w : World) (e : GError) :
  bus_get_reply w = (None, Some e) ->
  run w
  = (Exited 1,
     [Call c_g_type_init;
      Call (c_dbus_g_bus_get DBUS_BUS_SESSION);
      Print Stderr (line_failed_to_connect e);
      Call (c_g_error_free (Some e));
      Call (c_exit 1)]).
Proof.
  intros H. unfold run. rewrite (main_no_bus w e H). reflexivity.
Qed.

Lemma no_bus_exits_with_1_witness :
  outcome no_bus_world = Exited 1
  /\ printed (events no_bus_world)
     = [(Stderr,
         fmt ["Failed to connect to Session bus: ";
              "Unable to determine the address of the message bus"; nl])].
Proof.
  pose proof (no_bus_exits_with_1 no_bus_world
                {| g_code := 0;
                   g_message := "Unable to determine the address of the message bus" |}
                eq_refl) as Hrun.
  split; [unfold outcome|unfold events]; rewrite Hrun; reflexivity.
Defined.

(** ** The name request fails *)

(** C1.  In the world where the connection is obtained and the request
    returns -1, [main] stops at the read of [dbuserror -> message]:
    [dbuserror] is NULL there.  Nothing has been written, and
    [g_main_loop_new] and the rest of [main] are never reached. *)
Theorem refused_request_stops_main :
  run refused_world
  = (Crashed (NullDeref "dbuserror -> message"), connect_trace {| gconn_id := 0 |})
  /\ printed (events refused_world) = []
  /\ ~ In (Call c_g_main_loop_new) (events refused_world).
Proof.
  split; [reflexivity|]. split; [reflexivity|].
  intros H. vm_compute in H.
  repeat (destruct H as [H|H]; [discriminate H|]). exact H.
Qed.

(** C9.  The failure branch of the [switch] in [main] runs with
    [dbuserror] equal to NULL (it is set to NULL before the request and
    passed by value), and the read of its [message] field is then a NULL
    dereference, in whatever state the branch is entered; [main_acquire]
    reaches it in the world where the request returns -1. *)
Theorem failure_branch_reads_null :
  (forall s, request_report (-1) None s = Crash (NullDeref "dbuserror -> message") s)
  /\ main_acquire refused_world initial
     = Crash (NullDeref "dbuserror -> message")
         (set_con (Some {| conn_id := 0 |})
            (set_trace (connect_trace {| gconn_id := 0 |}) initial)).
Proof.
  split; [intros s|]; reflexivity.
Qed.

(** ** Facts that hold of every run *)

Lemma callback_event_in (added : list Event) (e : Event) :
  forallb callback_event added = true -> In e added -> callback_event e = true.
Proof.
  intros K H. rewrite forallb_forall in K. apply K. exact H.
Qed.

(** [H : In e t] cannot be, [t] being made of the fixed parts of a run and
    of events written by callbacks (hypothesis [K]). *)
Ltac not_in_run H K :=
  unfold entry_trace, connect_trace, subscribe_trace, cleanup_trace in H;
  repeat (apply in_app_or in H; destruct H as [H|H]);
  try (apply (callback_event_in _ _ K) in H; discriminate H);
  simpl in H; repeat (destruct H as [H|H]; [discriminate H|]);
  try contradiction.


Lemma callbacks_add_no_timeout (added : list Event) :
  forallb callback_event added = true -> filter is_timeout_add added = [].
Proof.
  induction added as [|e added IH]; simpl; [reflexivity|].
  intros H. apply andb_prop in H. destruct H as [He H].
  destruct e as [fd text|c|l]; [|destruct c|]; simpl in *;
    try discriminate He; auto.
Qed.

(** ** Exit status *)

(** C6.  A run that ends with an exit status ends with 0 or 1.  It is 1
    exactly when [dbus_g_bus_get] returned no connection (and an error to
    report); it is 0 exactly when [g_main_loop_run] returned, and then
    [onNameLost] has written its notice, i.e. the NameLost callback is
    what stopped the loop. *)
Theorem exit_status_0_or_1 (w : World) :
  (forall n, outcome w = Exited n -> n = 0 \/ n = 1)
  /\ (outcome w = Exited 1 <-> exists e, bus_get_reply w = (None, Some e))
  /\ (outcome w = Exited 0 <-> exists l, In (LoopReturned l) (events w))
  /\ (outcome w = Exited 0 -> In (Print Stdout line_lost) (events w)).
Proof.
  unfold outcome, events.
  destruct (run_shape w) as [Hb Hrun|e Hb Hrun|gc oe Hb Hr Hrun
                            |gc oe line added Hb Hr K C Hrun
                            |gc oe line added Hb Hr K C Q Hrun];
    rewrite Hrun; cbn [fst snd]; rewrite Hb.
  - split; [intros n H; discriminate H|].
    split; [split; [intros H|intros [e H]]; discriminate H|].
    split; [split; [intros H; discriminate H|intros [l H]; not_in_run H I]|].
    intros H; discriminate H.
  - split; [intros n H; injection H as <-; right; reflexivity|].
    split; [split; [intros _; exists e; reflexivity|reflexivity]|].
    split; [split; [intros H; discriminate H|intros [l H]; not_in_run H I]|].
    intros H; discriminate H.
  - split; [intros n H; discriminate H|].
    split; [split; [intros H|intros [e H]]; discriminate H|].
    split; [split; [intros H; discriminate H|intros [l H]; not_in_run H I]|].
    intros H; discriminate H.
  - split; [intros n H; discriminate H|].
    split; [split; [intros H|intros [e H]]; discriminate H|].
    split; [split; [intros H; discriminate H|intros [l H]; not_in_run H K]|].
    intros H; discriminate H.
  - split; [intros n H; injection H as <-; left; reflexivity|].
    split; [split; [intros H|intros [e H]]; discriminate H|].
    split; [split; [intros _|reflexivity]|intros _].
    + exists (Some the_loop). apply in_or_app; right. apply in_or_app; right.
      left; reflexivity.
    + apply in_or_app; right. apply in_or_app; left. exact Q.
Qed.

Lemma exit_status_0_or_1_witness :
  (exists e, bus_get_reply no_bus_world = (None, Some e))
  /\ In (Print Stdout line_lost) (events happy_world).
Proof.
  split.
  - apply (proj1 (proj1 (proj2 (exit_status_0_or_1 no_bus_world)))).
    reflexivity.
  - apply (proj2 (proj2 (proj2 (exit_status_0_or_1 happy_world)))).
    reflexivity.
Defined.

(** ** The subscription *)


Lemma main_subscribe_ok (gc : DBusGConnection) (line : string) :
  main_subscribe (Some gc)
    (set_con (Some {| conn_id := gconn_id gc |})
       (set_trace (connect_trace gc ++ [Print Stderr line]) initial))
  = Ok (Some (the_proxy gc)) (entry_state gc line).
Proof. reflexivity. Qed.



(** * Whole runs *)

(** ** The loop, step by step *)

Lemma is_NameLost_handler (gc : DBusGConnection) (sg : Signal) :
  handler_matches [(2%nat, "NameLost", [G_TYPE_STRING])] sg (the_handler gc)
  = is_NameLost sg.
Proof. reflexivity. Qed.

Lemma NameLost_signal_is_NameLost (name : string) :
  is_NameLost (NameLost_signal name) = true.
Proof. reflexivity. Qed.

Section Steps.
Variable w : World.
Variable gc : DBusGConnection.
Variable line : string.

Lemma armed_running (c : N) : is_running the_loop (armed gc line c) = true.
Proof. reflexivity. Qed.

Lemma fired_running (c : N) : is_running the_loop (fired gc line (release_events w gc) c) = true.
Proof. reflexivity. Qed.

Lemma quit_not_running (s : State) : is_running the_loop (quit_of s) = false.
Proof. reflexivity. Qed.

Lemma armed_elapse_early (c ms : N) :
  (c + ms < 1000)%N ->
  iteration (call_source w) call_handler (Elapse ms) (armed gc line c)
  = Ok tt (armed gc line (c + ms)).
Proof.
  intros H. unfold iteration, bind, modify, get, armed.
  cbn [clock set_clock timeouts loop_state set_running set_trace entry_state filter].
  unfold is_due. cbn [src_due the_timeout].
  destruct (N.leb_spec 1000 (c + ms)); [lia|]. reflexivity.
Qed.

Lemma armed_elapse_due (c ms : N) :
  (1000 <= c + ms)%N ->
  iteration (call_source w) call_handler (Elapse ms) (armed gc line c)
  = Ok tt (fired gc line (release_events w gc) (c + ms)).
Proof.
  intros H. unfold iteration, bind, modify, get, armed.
  cbn [clock set_clock timeouts loop_state set_running set_trace entry_state filter].
  unfold is_due. cbn [src_due the_timeout].
  destruct (N.leb_spec 1000 (c + ms)); [|lia].
  cbn [dispatch_timeouts]. unfold bind, get.
  cbn [alive timeouts set_clock existsb src_id the_timeout Nat.eqb orb].
  cbn [call_source src_func the_timeout].
  change (existsb (fun t : Timeout => Nat.eqb (src_id t) 3)
            (timeouts (loop_state gc line))) with true.
  cbv beta iota. rewrite releaseName_runs.
  change (releases (trace (set_clock (c + ms) (set_clock c (loop_state gc line)))))
    with 0%nat.
  reflexivity.
Qed.

Lemma fired_elapse (c ms : N) :
  iteration (call_source w) call_handler (Elapse ms) (fired gc line (release_events w gc) c)
  = Ok tt (fired gc line (release_events w gc) (c + ms)).
Proof. reflexivity. Qed.

Lemma onNameLost_quit_of (s : State) :
  mainloop s = Some the_loop ->
  running s = [loop_id the_loop] ->
  onNameLost s = Ok tt (quit_of s).
Proof.
  destruct s as [t ml cn ck fr rn ts dc hs]. simpl. intros -> ->.
  unfold onNameLost, g_print, g_main_loop_quit, bind, get, emit, modify, ret,
    quit_of, quit_events, set_running, set_trace. simpl.
  rewrite <- app_assoc. reflexivity.
Qed.

Lemma signal_step (s : State) (sg : Signal) :
  handlers s = [the_handler gc] ->
  declared s = [(2%nat, "NameLost", [G_TYPE_STRING])] ->
  mainloop s = Some the_loop ->
  running s = [loop_id the_loop] ->
  iteration (call_source w) call_handler (Emit sg) s
  = Ok tt (if is_NameLost sg then quit_of s else s).
Proof.
  intros Hh Hd Hm Hr. unfold iteration, bind, get.
  rewrite Hh, Hd. cbn [filter]. rewrite is_NameLost_handler.
  destruct (is_NameLost sg); cbn [dispatch_signal]; [|reflexivity].
  unfold bind. cbn [call_handler h_func the_handler].
  rewrite (onNameLost_quit_of s Hm Hr). reflexivity.
Qed.

Lemma armed_signal (c : N) (sg : Signal) :
  iteration (call_source w) call_handler (Emit sg) (armed gc line c)
  = Ok tt (if is_NameLost sg then quit_of (armed gc line c) else armed gc line c).
Proof. apply signal_step; reflexivity. Qed.

Lemma fired_signal (c : N) (sg : Signal) :
  iteration (call_source w) call_handler (Emit sg) (fired gc line (release_events w gc) c)
  = Ok tt (if is_NameLost sg then quit_of (fired gc line (release_events w gc) c)
           else fired gc line (release_events w gc) c).
Proof. apply signal_step; reflexivity. Qed.

Lemma iterate_quit (evs : list LoopEvent) (s : State) :
  iterate (call_source w) call_handler the_loop evs (quit_of s) = Ok tt (quit_of s).
Proof. destruct evs; reflexivity. Qed.

Lemma iterate_blocked (s : State) :
  is_running the_loop s = true ->
  iterate (call_source w) call_handler the_loop [] s = Hang s.
Proof. intros R. simpl. rewrite R. reflexivity. Qed.

(** The loop after the timer fired does what [loop_log] says. *)
Lemma loop_fired (evs : list LoopEvent) :
  forall c, exists s',
    trace s' = entry_trace gc line ++ (release_events w gc) ++ fst (loop_log (release_events w gc) false c evs)
    /\ iterate (call_source w) call_handler the_loop evs (fired gc line (release_events w gc) c)
       = if snd (loop_log (release_events w gc) false c evs) then Ok tt s' else Hang s'.
Proof.
  induction evs as [|[ms|sg] evs IH]; intros c.
  - exists (fired gc line (release_events w gc) c). split.
    + cbn [loop_log fst]. rewrite app_nil_r. reflexivity.
    + apply iterate_blocked, fired_running.
  - rewrite (iterate_step _ _ _ _ _ _ _ (fired_running c) (fired_elapse c ms)).
    apply IH.
  - rewrite (iterate_step _ _ _ _ _ _ _ (fired_running c) (fired_signal c sg)).
    simpl. destruct (is_NameLost sg).
    + exists (quit_of (fired gc line (release_events w gc) c)). split.
      * change (trace (quit_of (fired gc line (release_events w gc) c)))
          with ((entry_trace gc line ++ (release_events w gc)) ++ quit_events).
        rewrite <- app_assoc. reflexivity.
      * apply iterate_quit.
    + apply IH.
Qed.

(** The loop with the timer pending does what [loop_log] says. *)
Lemma loop_armed (evs : list LoopEvent) :
  forall c,
    (c < 1000)%N ->
    exists s',
      trace s' = entry_trace gc line ++ fst (loop_log (release_events w gc) true c evs)
      /\ iterate (call_source w) call_handler the_loop evs (armed gc line c)
         = if snd (loop_log (release_events w gc) true c evs) then Ok tt s' else Hang s'.
Proof.
  induction evs as [|[ms|sg] evs IH]; intros c Hc.
  - exists (armed gc line c). split.
    + cbn [loop_log fst]. rewrite app_nil_r. reflexivity.
    + apply iterate_blocked, armed_running.
  - simpl loop_log.
    destruct (N.leb_spec 1000 (c + ms)) as [Hdue|Hearly]; simpl andb; cbv iota.
    + rewrite (iterate_step _ _ _ _ _ _ _ (armed_running c)
                 (armed_elapse_due c ms Hdue)).
      apply loop_fired.
    + rewrite (iterate_step _ _ _ _ _ _ _ (armed_running c)
                 (armed_elapse_early c ms Hearly)).
      apply IH. exact Hearly.
  - rewrite (iterate_step _ _ _ _ _ _ _ (armed_running c) (armed_signal c sg)).
    simpl. destruct (is_NameLost sg).
    + exists (quit_of (armed gc line c)). split.
      * reflexivity.
      * apply iterate_quit.
    + apply IH. exact Hc.
Qed.
End Steps.

(** ** What [loop_log] says *)

Lemma log_returns (rel : list Event) (evs : list LoopEvent) :
  forall pending c,
    snd (loop_log rel pending c evs) = existsb delivers_NameLost evs.
Proof.
  induction evs as [|[ms|sg] evs IH]; intros pending c; simpl.
  - reflexivity.
  - destruct (pending && (1000 <=? c + ms)%N); simpl; apply IH.
  - destruct (is_NameLost sg); simpl; [reflexivity|apply IH].
Qed.

Lemma log_members (rel : list Event) (evs : list LoopEvent) (e : Event) :
  forall pending c,
    In e (fst (loop_log rel pending c evs)) -> In e rel \/ In e quit_events.
Proof.
  induction evs as [|[ms|sg] evs IH]; intros pending c; simpl.
  - contradiction.
  - destruct (pending && (1000 <=? c + ms)%N); simpl; intros H.
    + apply in_app_or in H. destruct H as [H|H]; [left; exact H|].
      eapply IH; exact H.
    + eapply IH; exact H.
  - destruct (is_NameLost sg); intros H.
    + right. exact H.
    + eapply IH; exact H.
Qed.

Lemma log_releases_fired (rel : list Event) (evs : list LoopEvent) :
  forall c, releases (fst (loop_log rel false c evs)) = 0%nat.
Proof.
  induction evs as [|[ms|sg] evs IH]; intros c; simpl.
  - reflexivity.
  - apply IH.
  - destruct (is_NameLost sg); [reflexivity|apply IH].
Qed.

Lemma log_releases_armed (rel : list Event) (evs : list LoopEvent) :
  releases rel = 1%nat ->
  forall c,
    (c < 1000)%N ->
    releases (fst (loop_log rel true c evs))
    = if (1000 <=? c + elapsed (before_NameLost evs))%N then 1%nat else 0%nat.
Proof.
  intros Hrel. induction evs as [|[ms|sg] evs IH]; intros c Hc.
  - simpl. rewrite N.add_0_r.
    destruct (N.leb_spec 1000 c); [lia|reflexivity].
  - simpl loop_log. simpl before_NameLost. simpl elapsed.
    rewrite N.add_assoc.
    destruct (N.leb_spec 1000 (c + ms)) as [Hdue|Hearly]; simpl andb; cbv iota.
    + cbn [fst]. rewrite releases_app, Hrel, log_releases_fired.
      destruct (N.leb_spec 1000 (c + ms + elapsed (before_NameLost evs)));
        [reflexivity|lia].
    + apply IH. exact Hearly.
  - simpl. destruct (is_NameLost sg).
    + simpl. rewrite N.add_0_r.
      destruct (N.leb_spec 1000 c); [lia|reflexivity].
    + simpl. apply IH. exact Hc.
Qed.

Lemma stdout_of_app (a b : list Event) :
  stdout_of (a ++ b) = stdout_of a ++ stdout_of b.
Proof.
  induction a as [|e a IH]; simpl; [reflexivity|].
  destruct e as [[|] text|c|l]; simpl; rewrite IH; reflexivity.
Qed.

Lemma stdout_of_stderr_lines (ls : list string) :
  stdout_of (map (Print Stderr) ls) = [].
Proof. induction ls; simpl; auto. Qed.

Lemma log_stdout (rel : list Event) (evs : list LoopEvent) :
  stdout_of rel = [] ->
  forall pending c,
    stdout_of (fst (loop_log rel pending c evs))
    = if snd (loop_log rel pending c evs) then [line_lost] else [].
Proof.
  intros Hrel. induction evs as [|[ms|sg] evs IH]; intros pending c; simpl.
  - reflexivity.
  - destruct (pending && (1000 <=? c + ms)%N); simpl.
    + rewrite stdout_of_app, Hrel. apply IH.
    + apply IH.
  - destruct (is_NameLost sg); [reflexivity|apply IH].
Qed.

Lemma releases_release_events (w : World) (gc : DBusGConnection) :
  releases (release_events w gc) = 1%nat.
Proof. apply releases_release_lines. Qed.

Lemma stdout_of_release_events (w : World) (gc : DBusGConnection) :
  stdout_of (release_events w gc) = [].
Proof. unfold release_events. simpl. apply stdout_of_stderr_lines. Qed.

(** ** A run that reaches the loop *)

Lemma run_follows_log (w : World) (gc : DBusGConnection) (oe : option GError) :
  bus_get_reply w = (Some gc, oe) ->
  as_int (request_name_reply w) <> -1 ->
  exists line,
    run w
    = (if snd (loop_log (release_events w gc) true 0 (loop_events w))
       then Exited 0 else Hung,
       entry_trace gc line
         ++ fst (loop_log (release_events w gc) true 0 (loop_events w))
         ++ (if snd (loop_log (release_events w gc) true 0 (loop_events w))
             then cleanup_trace gc else [])).
Proof.
  intros Hbus Hr.
  destruct (main_enters_loop w gc oe Hbus Hr) as (line & _ & Hmain).
  exists line.
  unfold bind at 1 in Hmain. rewrite g_main_loop_run_entry in Hmain.
  destruct (loop_armed w gc line (loop_events w) 0%N eq_refl) as (s' & T & Hit).
  change (armed gc line 0) with (loop_state gc line) in Hit.
  rewrite Hit in Hmain. unfold run. rewrite Hmain.
  destruct (snd (loop_log (release_events w gc) true 0 (loop_events w))).
  - unfold bind, emit, g_object_unref, modify, ret; simpl.
    rewrite T. rewrite <- !app_assoc. reflexivity.
  - simpl. rewrite T, app_nil_r. reflexivity.
Qed.

Lemma run_cases (w : World) :
  (bus_get_reply w = (None, None)
   /\ run w = (Crashed (NullDeref "error -> message"),
               [Call c_g_type_init; Call (c_dbus_g_bus_get DBUS_BUS_SESSION)]))
  \/ (exists e,
        bus_get_reply w = (None, Some e)
        /\ run w = (Exited 1,
                    [Call c_g_type_init; Call (c_dbus_g_bus_get DBUS_BUS_SESSION);
                     Print Stderr (line_failed_to_connect e);
                     Call (c_g_error_free (Some e)); Call (c_exit 1)]))
  \/ (exists gc oe,
        bus_get_reply w = (Some gc, oe)
        /\ as_int (request_name_reply w) = -1
        /\ run w = (Crashed (NullDeref "dbuserror -> message"), connect_trace gc))
  \/ (exists gc oe line,
        bus_get_reply w = (Some gc, oe)
        /\ as_int (request_name_reply w) <> -1
        /\ run w
           = (if snd (loop_log (release_events w gc) true 0 (loop_events w))
              then Exited 0 else Hung,
              entry_trace gc line
                ++ fst (loop_log (release_events w gc) true 0 (loop_events w))
                ++ (if snd (loop_log (release_events w gc) true 0 (loop_events w))
                    then cleanup_trace gc else []))).
Proof.
  destruct (bus_get_reply w) as [[gc|] [e|]] eqn:Hbus.
  - destruct (Z.eq_dec (as_int (request_name_reply w)) (-1)) as [Hr|Hr].
    + right; right; left. exists gc, (Some e). repeat split; auto.
      unfold run. rewrite (main_refused w gc _ Hbus Hr). reflexivity.
    + right; right; right.
      destruct (run_follows_log w gc _ Hbus Hr) as [line Hrun].
      exists gc, (Some e), line. repeat split; auto.
  - destruct (Z.eq_dec (as_int (request_name_reply w)) (-1)) as [Hr|Hr].
    + right; right; left. exists gc, None. repeat split; auto.
      unfold run. rewrite (main_refused w gc _ Hbus Hr). reflexivity.
    + right; right; right.
      destruct (run_follows_log w gc _ Hbus Hr) as [line Hrun].
      exists gc, None, line. repeat split; auto.
  - right; left. exists e. split; [reflexivity|].
    unfold run. rewrite (main_no_bus w e Hbus). reflexivity.
  - left. split; [reflexivity|].
    unfold run. rewrite (main_no_error w Hbus). reflexivity.
Qed.

(** ** Termination *)

(** X1.  Once the connection is there and the request did not return -1,
    whether the process ends depends on one thing only: it exits with
    status 0 if a NameLost signal of the bus daemon (one string argument)
    reaches the main loop, and blocks in [g_main_loop_run] for good if none
    does, whatever the request and the release answered and however much
    time passes. *)
Theorem terminates_iff_NameLost (w : World) (gc : DBusGConnection)
    (oe : option GError) :
  bus_get_reply w = (Some gc, oe) ->
  as_int (request_name_reply w) <> -1 ->
  outcome w = if existsb delivers_NameLost (loop_events w) then Exited 0 else Hung.
Proof.
  intros Hbus Hr. destruct (run_follows_log w gc oe Hbus Hr) as [line Hrun].
  unfold outcome. rewrite Hrun. cbn [fst]. rewrite log_returns. reflexivity.
Qed.

Lemma terminates_iff_NameLost_witness :
  outcome happy_world = Exited 0 /\ outcome taken_world = Hung.
Proof.
  split.
  - refine (terminates_iff_NameLost happy_world {| gconn_id := 0 |} None eq_refl _).
    vm_compute. discriminate.
  - refine (terminates_iff_NameLost taken_world {| gconn_id := 0 |} None eq_refl _).
    vm_compute. discriminate.
Defined.

(** X2.  Once the connection is there and the request did not return -1,
    [dbus_bus_release_name] is called exactly once if at least 1000 ms pass
    in the main loop before the first NameLost signal arrives (or without
    any arriving), and not at all otherwise: a NameLost that comes earlier
    ends the loop before the timer fires. *)
Theorem release_when_due (w : World) (gc : DBusGConnection) (oe : option GError) :
  bus_get_reply w = (Some gc, oe) ->
  as_int (request_name_reply w) <> -1 ->
  releases (events w)
  = if (1000 <=? elapsed (before_NameLost (loop_events w)))%N then 1%nat else 0%nat.
Proof.
  intros Hbus Hr. destruct (run_follows_log w gc oe Hbus Hr) as [line Hrun].
  unfold events. rewrite Hrun. cbn [snd]. rewrite !releases_app.
  change (releases (entry_trace gc line)) with 0%nat.
  rewrite (log_releases_armed _ _ (releases_release_events w gc) 0%N eq_refl).
  rewrite N.add_0_l.
  destruct (1000 <=? elapsed (before_NameLost (loop_events w)))%N;
    destruct (snd (loop_log (release_events w gc) true 0 (loop_events w)));
    reflexivity.
Qed.

Lemma release_when_due_witness :
  releases (events replaced_world) = 0%nat
  /\ releases (events taken_world) = 1%nat.
Proof.
  split.
  - refine (release_when_due replaced_world {| gconn_id := 0 |} None eq_refl _).
    vm_compute. discriminate.
  - refine (release_when_due taken_world {| gconn_id := 0 |} None eq_refl _).
    vm_compute. discriminate.
Defined.

(** ** What is written where *)

(** X3.  Standard output carries the loss notice, once, in the runs that
    exit with status 0, and nothing at all in any other run: every other
    line of the program goes to standard error. *)
Theorem stdout_is_the_notice (w : World) :
  stdout_of (events w)
  = match outcome w with
    | Exited status => if status =? 0 then [line_lost] else []
    | _ => []
    end.
Proof.
  unfold outcome, events.
  destruct (run_cases w) as [[_ Hrun]|[(e & _ & Hrun)|[(gc & oe & _ & _ & Hrun)
                            |(gc & oe & line & _ & _ & Hrun)]]];
    rewrite Hrun; cbn [fst snd]; try reflexivity.
  rewrite !stdout_of_app.
  rewrite (log_stdout _ _ (stdout_of_release_events w gc)).
  change (stdout_of (entry_trace gc line)) with (@nil string).
  destruct (snd (loop_log (release_events w gc) true 0 (loop_events w)));
    reflexivity.
Qed.

(** ** The library calls of a run *)

Lemma log_callback_events (w : World) (gc : DBusGConnection) (evs : list LoopEvent) :
  forall pending c,
    forallb callback_event (fst (loop_log (release_events w gc) pending c evs)) = true.
Proof.
  intros pending c. apply forallb_forall. intros e H.
  apply log_members in H. destruct H as [H|H].
  - destruct H as [<-|H]; [reflexivity|].
    apply in_map_iff in H. destruct H as (l & <- & _). reflexivity.
  - destruct H as [<-|[<-|[]]]; reflexivity.
Qed.

Lemma callbacks_request_nothing (added : list Event) :
  forallb callback_event added = true -> filter is_request added = [].
Proof.
  induction added as [|e added IH]; simpl; [reflexivity|].
  intros H. apply andb_prop in H. destruct H as [He H].
  destruct e as [fd text|c|l]; [|destruct c|]; simpl in *;
    try discriminate He; auto.
Qed.

Lemma callbacks_connect_to_no_bus (added : list Event) :
  forallb callback_event added = true -> filter is_bus_get added = [].
Proof.
  induction added as [|e added IH]; simpl; [reflexivity|].
  intros H. apply andb_prop in H. destruct H as [He H].
  destruct e as [fd text|c|l]; [|destruct c|]; simpl in *;
    try discriminate He; auto.
Qed.

(** X4.  The answer to the name request, as long as it is not -1, changes
    one line of a run and nothing else: two worlds that differ only in
    that answer give the same outcome and the same trace apart from the
    line the [switch] writes.  In particular a process that was refused
    the name (EXISTS) or queued still subscribes, arms the timer and
    calls the release like one that owns it. *)
Theorem request_result_only_changes_a_line (w1 w2 : World) (gc : DBusGConnection)
    (oe1 oe2 : option GError) :
  bus_get_reply w1 = (Some gc, oe1) ->
  bus_get_reply w2 = (Some gc, oe2) ->
  as_int (request_name_reply w1) <> -1 ->
  as_int (request_name_reply w2) <> -1 ->
  as_int (release_name_reply w1 0) = as_int (release_name_reply w2 0) ->
  loop_events w1 = loop_events w2 ->
  outcome w1 = outcome w2
  /\ exists line1 line2 after,
       events w1 = connect_trace gc ++ Print Stderr line1 :: after
       /\ events w2 = connect_trace gc ++ Print Stderr line2 :: after.
Proof.
  intros Hb1 Hb2 Hr1 Hr2 Hrel Hevs.
  destruct (run_follows_log w1 gc oe1 Hb1 Hr1) as [line1 Hrun1].
  destruct (run_follows_log w2 gc oe2 Hb2 Hr2) as [line2 Hrun2].
  assert (E : release_events w1 gc = release_events w2 gc)
    by (unfold release_events; rewrite Hrel; reflexivity).
  rewrite E, Hevs in Hrun1.
  unfold outcome, events. rewrite Hrun1, Hrun2. cbn [fst snd].
  split; [reflexivity|].
  exists line1, line2. eexists.
  unfold entry_trace. rewrite <- !app_assoc. cbn [app].
  split; reflexivity.
Qed.

Lemma request_result_only_changes_a_line_witness :
  outcome happy_world = outcome unowned_world
  /\ exists line1 line2 after,
       events happy_world
       = connect_trace {| gconn_id := 0 |} ++ Print Stderr line1 :: after
       /\ events unowned_world
          = connect_trace {| gconn_id := 0 |} ++ Print Stderr line2 :: after.
Proof.
  refine (request_result_only_changes_a_line happy_world unowned_world
            {| gconn_id := 0 |} None None eq_refl eq_refl _ _ eq_refl eq_refl).
  - vm_compute. discriminate.
  - vm_compute. discriminate.
Defined.

(** X5.  Whenever a run calls [dbus_bus_release_name], it is for the name
    "org.DBusTest.SignalTest", with a NULL error pointer, on the
    connection that [dbus_g_bus_get] returned, and the same run has
    requested that name on that connection before: the global [con] that
    [releaseName] reads is the connection [main] stored. *)
Theorem release_matches_request (w : World) (c : option DBusConnection)
    (n : string) (e : option DBusError) :
  In (Call (c_dbus_bus_release_name c n e)) (events w) ->
  n = the_name /\ e = None
  /\ (exists gc,
         fst (bus_get_reply w) = Some gc /\ c = Some {| conn_id := gconn_id gc |})
  /\ exists pre post,
       events w = pre ++ Call (c_dbus_bus_release_name c n e) :: post
       /\ In (Call (c_dbus_bus_request_name c the_name
                      DBUS_NAME_FLAG_ALLOW_REPLACEMENT None)) pre.
Proof.
  unfold events.
  destruct (run_cases w) as [[_ Hrun]|[(e' & _ & Hrun)|[(gc & oe & _ & _ & Hrun)
                            |(gc & oe & line & Hbus & _ & Hrun)]]];
    rewrite Hrun; cbn [snd]; intros H.
  - not_in_run H I.
  - not_in_run H I.
  - not_in_run H I.
  - apply in_app_or in H. destruct H as [H|H]; [not_in_run H I|].
    apply in_app_or in H. destruct H as [H|H].
    + pose proof H as Hin. apply log_members in H. destruct H as [H|H].
      * destruct H as [H|H].
        -- injection H as <- <- <-.
           split; [reflexivity|]. split; [reflexivity|].
           split; [exists gc; rewrite Hbus; split; reflexivity|].
           apply in_split in Hin. destruct Hin as (l1 & l2 & Hsplit).
           exists (entry_trace gc line ++ l1). eexists.
           rewrite Hsplit, <- !app_assoc. split; [reflexivity|].
           apply in_or_app. left. unfold entry_trace, connect_trace.
           simpl. tauto.
        -- apply in_map_iff in H. destruct H as (l & H & _). discriminate H.
      * simpl in H. destruct H as [H|[H|[]]]; discriminate H.
    + destruct (snd (loop_log (release_events w gc) true 0 (loop_events w)));
        not_in_run H I.
Qed.

Lemma release_matches_request_witness :
  exists gc,
    fst (bus_get_reply taken_world) = Some gc
    /\ Some {| conn_id := 0 |} = Some {| conn_id := gconn_id gc |}.
Proof.
  apply (release_matches_request taken_world (Some {| conn_id := 0 |})
           the_name None).
  vm_compute. repeat (first [left; reflexivity | right]).
Defined.

(** X6.  A run asks for the name at most once: exactly once when
    [dbus_g_bus_get] returned a connection, with the name
    "org.DBusTest.SignalTest", the flag DBUS_NAME_FLAG_ALLOW_REPLACEMENT
    and a NULL error pointer, on the [DBusConnection] of that connection;
    never when there is no connection.  No callback requests the name
    again, whatever the loop receives. *)
Theorem one_request_per_run (w : World) :
  filter is_request (events w)
  = match fst (bus_get_reply w) with
    | Some gc =>
        [Call (c_dbus_bus_request_name (Some {| conn_id := gconn_id gc |}) the_name
                 DBUS_NAME_FLAG_ALLOW_REPLACEMENT None)]
    | None => []
    end.
Proof.
  unfold events.
  destruct (run_cases w) as [[Hbus Hrun]|[(e' & Hbus & Hrun)
                            |[(gc & oe & Hbus & _ & Hrun)
                            |(gc & oe & line & Hbus & _ & Hrun)]]];
    rewrite Hrun, Hbus; cbn [fst snd]; try reflexivity.
  rewrite !filter_app.
  rewrite (callbacks_request_nothing _ (log_callback_events w gc _ true 0%N)).
  destruct (snd (loop_log (release_events w gc) true 0 (loop_events w)));
    reflexivity.
Qed.

(** X7.  Every run starts with [g_type_init] followed by
    [dbus_g_bus_get(DBUS_BUS_SESSION, ...)], and that is the only
    [dbus_g_bus_get] of the run: the program connects to the session bus,
    once, and never retries or turns to another bus. *)
Theorem connects_to_session_bus_once (w : World) :
  firstn 2 (events w) = [Call c_g_type_init; Call (c_dbus_g_bus_get DBUS_BUS_SESSION)]
  /\ filter is_bus_get (events w) = [Call (c_dbus_g_bus_get DBUS_BUS_SESSION)].
Proof.
  unfold events.
  destruct (run_cases w) as [[Hbus Hrun]|[(e' & Hbus & Hrun)
                            |[(gc & oe & Hbus & _ & Hrun)
                            |(gc & oe & line & Hbus & _ & Hrun)]]];
    rewrite Hrun; cbn [snd]; try (split; reflexivity).
  split; [reflexivity|].
  rewrite !filter_app.
  rewrite (callbacks_connect_to_no_bus _ (log_callback_events w gc _ true 0%N)).
  destruct (snd (loop_log (release_events w gc) true 0 (loop_events w)));
    reflexivity.
Qed.

(** ** The timer *)

(** C4.  [releaseName] returns FALSE whatever the release answers (it never
    fails either).  [main] registers it as a timer of 1000 ms: a run that
    has a connection and whose request did not return -1 contains exactly
    one [g_timeout_add] call, [g_timeout_add(1000, releaseName, sigcon)],
    any other run contains none, and when [g_main_loop_run] is about to be
    called the only timeout source is [releaseName], interval 1000 ms, due
    at 1000 ms.  So in every run, whatever reaches the main loop and
    however long it runs, [dbus_bus_release_name] is entered at most
    once. *)
Theorem release_is_one_shot (w : World) :
  (forall data s, exists s', releaseName w data s = Ok false s')
  /\ filter is_timeout_add (events w)
     = match fst (bus_get_reply w) with
       | Some gc =>
           if as_int (request_name_reply w) =? -1 then []
           else [Call (c_g_timeout_add 1000 fn_releaseName
                         (Some (Obj_gconnection gc)))]
       | None => []
       end
  /\ (forall gc oe,
         bus_get_reply w = (Some gc, oe) ->
         as_int (request_name_reply w) <> -1 ->
         exists proxy s2,
           (sigcon <- main_acquire w ;; main_subscribe sigcon) initial = Ok proxy s2
           /\ timeouts s2
              = [{| src_id := 3; src_interval := 1000; src_due := 1000;
                    src_func := fn_releaseName;
                    src_data := Some (Obj_gconnection gc) |}])
  /\ (releases (events w) <= 1)%nat.
Proof.
  split; [intros data s; rewrite releaseName_runs; eexists; reflexivity|].
  split; [|split].
  - unfold events.
    destruct (run_cases w) as [[Hbus Hrun]|[(e' & Hbus & Hrun)
                              |[(gc & oe & Hbus & Hr & Hrun)
                              |(gc & oe & line & Hbus & Hr & Hrun)]]];
      rewrite Hrun, Hbus; cbn [fst snd]; try reflexivity.
    + rewrite Hr. reflexivity.
    + apply Z.eqb_neq in Hr. rewrite Hr, !filter_app.
      rewrite (callbacks_add_no_timeout _ (log_callback_events w gc _ true 0%N)).
      destruct (snd (loop_log (release_events w gc) true 0 (loop_events w)));
        reflexivity.
  - intros gc oe Hbus Hr.
    destruct (main_acquire_ok w gc oe Hbus Hr) as (line & _ & Heq).
    exists (Some (the_proxy gc)), (entry_state gc line). split; [|reflexivity].
    unfold bind. rewrite Heq. apply main_subscribe_ok.
  - unfold events.
    destruct (run_shape w) as [Hb Hrun|e Hb Hrun|gc oe Hb Hr Hrun
                              |gc oe line added Hb Hr K C Hrun
                              |gc oe line added Hb Hr K C Q Hrun];
      rewrite Hrun; cbn [snd].
    + unfold releases; simpl; lia.
    + unfold releases; simpl; lia.
    + unfold releases; simpl; lia.
    + rewrite releases_app.
      change (releases (entry_trace gc line)) with 0%nat. lia.
    + rewrite !releases_app.
      change (releases (entry_trace gc line)) with 0%nat.
      change (releases (cleanup_trace gc)) with 0%nat. lia.
Qed.

Lemma release_is_one_shot_witness :
  exists proxy s2,
    (sigcon <- main_acquire happy_world ;; main_subscribe sigcon) initial
    = Ok proxy s2
    /\ timeouts s2
       = [{| src_id := 3; src_interval := 1000; src_due := 1000;
             src_func := fn_releaseName;
             src_data := Some (Obj_gconnection {| gconn_id := 0 |}) |}].
Proof.
  refine (proj1 (proj2 (proj2 (release_is_one_shot happy_world)))
            {| gconn_id := 0 |} None eq_refl _).
  vm_compute. discriminate.
Defined.

(** ** The end-to-end scenario *)

Lemma log_lost_after_fire (rel : list Event) (evs : list LoopEvent) :
  forall c,
    existsb delivers_NameLost evs = true ->
    loop_log rel false c evs = (quit_events, true).
Proof.
  induction evs as [|[ms|sg] evs IH]; intros c; simpl.
  - discriminate.
  - apply IH.
  - destruct (is_NameLost sg); simpl; [reflexivity|apply IH].
Qed.

Lemma log_release_then_lost (rel : list Event) (evs : list LoopEvent) :
  forall c,
    (c < 1000)%N ->
    existsb delivers_NameLost evs = true ->
    (1000 <= c + elapsed (before_NameLost evs))%N ->
    loop_log rel true c evs = (rel ++ quit_events, true).
Proof.
  induction evs as [|[ms|sg] evs IH]; intros c Hc.
  - discriminate.
  - simpl existsb. simpl before_NameLost. simpl elapsed. simpl loop_log.
    intros Hlost Hdue. rewrite N.add_assoc in Hdue.
    destruct (N.leb_spec 1000 (c + ms)) as [Hfire|Hearly]; simpl andb; cbv iota.
    + rewrite (log_lost_after_fire rel evs (c + ms)%N Hlost). reflexivity.
    + apply IH; assumption.
  - simpl. destruct (is_NameLost sg); simpl.
    + intros _ Hdue. lia.
    + apply IH. exact Hc.
Qed.

Lemma run_of_owner (w : World) (gc : DBusGConnection) (oe : option GError) :
  bus_get_reply w = (Some gc, oe) ->
  as_int (request_name_reply w) = DBUS_REQUEST_NAME_REPLY_PRIMARY_OWNER ->
  run w
  = (if snd (loop_log (release_events w gc) true 0 (loop_events w))
     then Exited 0 else Hung,
     entry_trace gc line_own
       ++ fst (loop_log (release_events w gc) true 0 (loop_events w))
       ++ (if snd (loop_log (release_events w gc) true 0 (loop_events w))
           then cleanup_trace gc else [])).
Proof.
  intros Hbus Hreq.
  assert (Hr : as_int (request_name_reply w) <> -1)
    by (rewrite Hreq; discriminate).
  destruct (main_enters_loop w gc oe Hbus Hr) as (line & Hline & Hmain).
  rewrite (Hline Hreq) in Hmain. clear line Hline.
  unfold bind at 1 in Hmain. rewrite g_main_loop_run_entry in Hmain.
  destruct (loop_armed w gc line_own (loop_events w) 0%N eq_refl) as (s' & T & Hit).
  change (armed gc line_own 0) with (loop_state gc line_own) in Hit.
  rewrite Hit in Hmain. unfold run. rewrite Hmain.
  destruct (snd (loop_log (release_events w gc) true 0 (loop_events w))).
  - unfold bind, emit, g_object_unref, modify, ret; simpl.
    rewrite T. rewrite <- !app_assoc. reflexivity.
  - simpl. rewrite T, app_nil_r. reflexivity.
Qed.

(** C5.  In a world where the session bus is reached, the request answers
    PRIMARY_OWNER, the first release answers RELEASED, and the daemon's
    NameLost signal reaches the main loop after at least 1000 ms have
    passed there (in any number of steps, and whatever other signals
    arrive before it), the process writes exactly three lines, in this
    order: "We now own the name ..." (stderr), "... was released
    successfully" (stderr), "!!! We lost our Name !!!" (stdout); then
    [onNameLost] asks the loop to quit, [g_main_loop_run] returns, the proxy
    is released and the process ends with status 0. *)
Theorem end_to_end_success (w : World) (gc : DBusGConnection) (oe : option GError) :
  bus_get_reply w = (Some gc, oe) ->
  as_int (request_name_reply w) = DBUS_REQUEST_NAME_REPLY_PRIMARY_OWNER ->
  as_int (release_name_reply w 0) = DBUS_RELEASE_NAME_REPLY_RELEASED ->
  existsb delivers_NameLost (loop_events w) = true ->
  (1000 <= elapsed (before_NameLost (loop_events w)))%N ->
  run w
  = (Exited 0,
     entry_trace gc line_own
       ++ [Call (c_dbus_bus_release_name (Some {| conn_id := gconn_id gc |})
                   the_name None);
           Print Stderr line_released;
           Print Stdout line_lost;
           Call (c_g_main_loop_quit (Some the_loop))]
       ++ cleanup_trace gc)
  /\ printed (events w)
     = [(Stderr, line_own); (Stderr, line_released); (Stdout, line_lost)].
Proof.
  intros Hbus Hreq Hrel Hlost Hdue.
  assert (Hrun : run w
                 = (Exited 0,
                    entry_trace gc line_own
                      ++ [Call (c_dbus_bus_release_name
                                  (Some {| conn_id := gconn_id gc |}) the_name None);
                          Print Stderr line_released;
                          Print Stdout line_lost;
                          Call (c_g_main_loop_quit (Some the_loop))]
                      ++ cleanup_trace gc)).
  { rewrite (run_of_owner w gc oe Hbus Hreq).
    rewrite (log_release_then_lost (release_events w gc) (loop_events w) 0%N
               eq_refl Hlost);
      [|rewrite N.add_0_l; exact Hdue].
    cbn [fst snd]. unfold release_events. rewrite Hrel. reflexivity. }
  split; [exact Hrun|].
  unfold events. rewrite Hrun. reflexivity.
Qed.

Lemma end_to_end_success_witness :
  (outcome happy_world = Exited 0
   /\ printed (events happy_world)
      = [(Stderr, line_own); (Stderr, line_released); (Stdout, line_lost)])
  /\ (outcome daemon_world = Exited 0
      /\ printed (events daemon_world)
         = [(Stderr, line_own); (Stderr, line_released); (Stdout, line_lost)]).
Proof.
  split.
  - destruct (end_to_end_success happy_world {| gconn_id := 0 |} None
                eq_refl eq_refl eq_refl eq_refl)
      as [Hrun Hprinted].
    + vm_compute. discriminate.
    + split; [unfold outcome; rewrite Hrun; reflexivity|exact Hprinted].
  - destruct (end_to_end_success daemon_world {| gconn_id := 0 |} None
                eq_refl eq_refl eq_refl eq_refl)
      as [Hrun Hprinted].
    + vm_compute. discriminate.
    + split; [unfold outcome; rewrite Hrun; reflexivity|exact Hprinted].
Defined.
